(** * Vehicle control panel simulation: the vehicle state and its stepper

    A shallow embedding of [core/data_loader.py] ([VehicleData],
    [ConfigManager]) and [core/control_handler.py] ([ControlHandler]),
    together with the pieces of [main.py] that build and store a
    [VehicleData], start and close a session, and draw the pedal, gear and
    steering displays.

    Conventions of the embedding.
    - Python numbers (the fields annotated [float], and the [int] literals
      that flow into them) are exact rationals [Q].  Binary64 rounding
      error, infinities and NaN are not part of the model; [round] is
      round-half-to-even on the exact value.
    - An object mutated in place is a value passed in and returned.
    - [time.time()] and [random.random()] are inputs of the step: [now] is
      the instant read by the call, [u i] is the [i]-th number the call
      draws from the generator.
    - A method that can raise returns the exception next to the state it
      leaves behind, since fields assigned before the raise stay assigned.
    - Records written through the module logger are returned in call
      order. *)

From Stdlib Require Import QArith Qround Qminmax Lqa Lia Bool Ascii DecimalString.
From stdpp Require Import gmap strings list fin_maps.

#[local] Set Warnings "-register-all".
#[local] Open Scope Q_scope.

(** ** Python values and built-ins *)

(** The values that reach the modelled code through dictionaries (kwargs,
    JSON documents, dynamic attributes). *)
Inductive pyval :=
| PNone
| PBool (b : bool)
| PNum (q : Q)
| PStr (s : string)
| PDict (d : gmap string pyval).

Inductive exn :=
| AttributeError (name : string)
| TypeError (what : string)
| FileNotFoundError (path : string)
| JSONDecodeError (why : string).

(** Outcome of a call that may raise. *)
Inductive result (A : Type) :=
| Ok (a : A)
| Raise (e : exn).
Arguments Ok {A} a.
Arguments Raise {A} e.

Inductive level := DEBUG | INFO | WARNING | ERROR.
Definition log_record : Type := level * string.

Module Py.

(** [a < b], [a > b], [a <= b], [a == b] on numbers. *)
Definition lt (a b : Q) : bool :=
  match Qcompare a b with Lt => true | _ => false end.
Definition gt (a b : Q) : bool := lt b a.
Definition le (a b : Q) : bool :=
  match Qcompare a b with Gt => false | _ => true end.
Definition eq (a b : Q) : bool :=
  match Qcompare a b with Eq => true | _ => false end.

(** Two-argument [min] and [max]: the first argument is kept unless the
    second is strictly smaller (larger). *)
Definition min (a b : Q) : Q := if lt b a then b else a.
Definition max (a b : Q) : Q := if gt b a then b else a.

(** Nearest integer, ties to the even one. *)
Definition round_half_even (x : Q) : Z :=
  let f := Qfloor x in
  match Qcompare (x - inject_Z f) (1 # 2) with
  | Lt => f
  | Gt => (f + 1)%Z
  | Eq => if Z.even f then f else (f + 1)%Z
  end.

Definition pow10 (n : nat) : Q := inject_Z (10 ^ Z.of_nat n).

(** [round(x, ndigits)] for [ndigits >= 0]. *)
Definition round (x : Q) (ndigits : nat) : Q :=
  inject_Z (round_half_even (x * pow10 ndigits)) / pow10 ndigits.

(** [x in l] for a list of strings. *)
Definition str_in (x : string) (l : list string) : bool :=
  existsb (String.eqb x) l.

(** [random.uniform(a, b)], given the underlying [random.random()]. *)
Definition uniform (a b : Q) (r : Q) : Q := a + (b - a) * r.

(** [d.get(key, default)]. *)
Definition get {A} (d : gmap string A) (key : string) (default : A) : A :=
  match d !! key with Some v => v | None => default end.

(** Truth value of a dictionary: non-empty. *)
Definition truthy {A} (d : gmap string A) : bool :=
  match map_to_list d with [] => false | _ => true end.

End Py.

(** ** core/data_loader.py: VehicleData *)

(** The nineteen dataclass fields, and [dyn_attrs] for the attributes that
    are assigned on an instance without being declared ([maneuver_name]
    is one: the class does not declare it). *)
Record VehicleData := {
  rpm : Q;
  speed_kmh : Q;
  odometer_km : Q;
  gear : string;
  pos_x_m : Q;
  pos_y_m : Q;
  pos_z_m : Q;
  angle_roll_deg : Q;
  angle_pitch_deg : Q;
  angle_yaw_deg : Q;
  roll_rate_degs : Q;
  pitch_rate_degs : Q;
  yaw_rate_degs : Q;
  clutch_value : Q;
  break_value : Q;
  accel_value : Q;
  steering_wheel_angle : Q;
  vehicle_started : bool;
  maneuver_active : bool;
  dyn_attrs : gmap string pyval
}.

Definition with_rpm (vd : VehicleData) (x : Q) : VehicleData :=
  {| rpm := x; speed_kmh := speed_kmh vd; odometer_km := odometer_km vd;
     gear := gear vd; pos_x_m := pos_x_m vd; pos_y_m := pos_y_m vd;
     pos_z_m := pos_z_m vd; angle_roll_deg := angle_roll_deg vd;
     angle_pitch_deg := angle_pitch_deg vd;
     angle_yaw_deg := angle_yaw_deg vd; roll_rate_degs := roll_rate_degs vd;
     pitch_rate_degs := pitch_rate_degs vd;
     yaw_rate_degs := yaw_rate_degs vd; clutch_value := clutch_value vd;
     break_value := break_value vd; accel_value := accel_value vd;
     steering_wheel_angle := steering_wheel_angle vd;
     vehicle_started := vehicle_started vd;
     maneuver_active := maneuver_active vd; dyn_attrs := dyn_attrs vd |}.

Definition with_speed_kmh (vd : VehicleData) (x : Q) : VehicleData :=
  {| rpm := rpm vd; speed_kmh := x; odometer_km := odometer_km vd;
     gear := gear vd; pos_x_m := pos_x_m vd; pos_y_m := pos_y_m vd;
     pos_z_m := pos_z_m vd; angle_roll_deg := angle_roll_deg vd;
     angle_pitch_deg := angle_pitch_deg vd;
     angle_yaw_deg := angle_yaw_deg vd; roll_rate_degs := roll_rate_degs vd;
     pitch_rate_degs := pitch_rate_degs vd;
     yaw_rate_degs := yaw_rate_degs vd; clutch_value := clutch_value vd;
     break_value := break_value vd; accel_value := accel_value vd;
     steering_wheel_angle := steering_wheel_angle vd;
     vehicle_started := vehicle_started vd;
     maneuver_active := maneuver_active vd; dyn_attrs := dyn_attrs vd |}.

Definition with_odometer_km (vd : VehicleData) (x : Q) : VehicleData :=
  {| rpm := rpm vd; speed_kmh := speed_kmh vd; odometer_km := x;
     gear := gear vd; pos_x_m := pos_x_m vd; pos_y_m := pos_y_m vd;
     pos_z_m := pos_z_m vd; angle_roll_deg := angle_roll_deg vd;
     angle_pitch_deg := angle_pitch_deg vd;
     angle_yaw_deg := angle_yaw_deg vd; roll_rate_degs := roll_rate_degs vd;
     pitch_rate_degs := pitch_rate_degs vd;
     yaw_rate_degs := yaw_rate_degs vd; clutch_value := clutch_value vd;
     break_value := break_value vd; accel_value := accel_value vd;
     steering_wheel_angle := steering_wheel_angle vd;
     vehicle_started := vehicle_started vd;
     maneuver_active := maneuver_active vd; dyn_attrs := dyn_attrs vd |}.

Definition with_gear (vd : VehicleData) (x : string) : VehicleData :=
  {| rpm := rpm vd; speed_kmh := speed_kmh vd; odometer_km := odometer_km vd;
     gear := x; pos_x_m := pos_x_m vd; pos_y_m := pos_y_m vd;
     pos_z_m := pos_z_m vd; angle_roll_deg := angle_roll_deg vd;
     angle_pitch_deg := angle_pitch_deg vd;
     angle_yaw_deg := angle_yaw_deg vd; roll_rate_degs := roll_rate_degs vd;
     pitch_rate_degs := pitch_rate_degs vd;
     yaw_rate_degs := yaw_rate_degs vd; clutch_value := clutch_value vd;
     break_value := break_value vd; accel_value := accel_value vd;
     steering_wheel_angle := steering_wheel_angle vd;
     vehicle_started := vehicle_started vd;
     maneuver_active := maneuver_active vd; dyn_attrs := dyn_attrs vd |}.

Definition with_pos_x_m (vd : VehicleData) (x : Q) : VehicleData :=
  {| rpm := rpm vd; speed_kmh := speed_kmh vd; odometer_km := odometer_km vd;
     gear := gear vd; pos_x_m := x; pos_y_m := pos_y_m vd;
     pos_z_m := pos_z_m vd; angle_roll_deg := angle_roll_deg vd;
     angle_pitch_deg := angle_pitch_deg vd;
     angle_yaw_deg := angle_yaw_deg vd; roll_rate_degs := roll_rate_degs vd;
     pitch_rate_degs := pitch_rate_degs vd;
     yaw_rate_degs := yaw_rate_degs vd; clutch_value := clutch_value vd;
     break_value := break_value vd; accel_value := accel_value vd;
     steering_wheel_angle := steering_wheel_angle vd;
     vehicle_started := vehicle_started vd;
     maneuver_active := maneuver_active vd; dyn_attrs := dyn_attrs vd |}.

Definition with_pos_y_m (vd : VehicleData) (x : Q) : VehicleData :=
  {| rpm := rpm vd; speed_kmh := speed_kmh vd; odometer_km := odometer_km vd;
     gear := gear vd; pos_x_m := pos_x_m vd; pos_y_m := x;
     pos_z_m := pos_z_m vd; angle_roll_deg := angle_roll_deg vd;
     angle_pitch_deg := angle_pitch_deg vd;
     angle_yaw_deg := angle_yaw_deg vd; roll_rate_degs := roll_rate_degs vd;
     pitch_rate_degs := pitch_rate_degs vd;
     yaw_rate_degs := yaw_rate_degs vd; clutch_value := clutch_value vd;
     break_value := break_value vd; accel_value := accel_value vd;
     steering_wheel_angle := steering_wheel_angle vd;
     vehicle_started := vehicle_started vd;
     maneuver_active := maneuver_active vd; dyn_attrs := dyn_attrs vd |}.

Definition with_pos_z_m (vd : VehicleData) (x : Q) : VehicleData :=
  {| rpm := rpm vd; speed_kmh := speed_kmh vd; odometer_km := odometer_km vd;
     gear := gear vd; pos_x_m := pos_x_m vd; pos_y_m := pos_y_m vd;
     pos_z_m := x; angle_roll_deg := angle_roll_deg vd;
     angle_pitch_deg := angle_pitch_deg vd;
     angle_yaw_deg := angle_yaw_deg vd; roll_rate_degs := roll_rate_degs vd;
     pitch_rate_degs := pitch_rate_degs vd;
     yaw_rate_degs := yaw_rate_degs vd; clutch_value := clutch_value vd;
     break_value := break_value vd; accel_value := accel_value vd;
     steering_wheel_angle := steering_wheel_angle vd;
     vehicle_started := vehicle_started vd;
     maneuver_active := maneuver_active vd; dyn_attrs := dyn_attrs vd |}.

Definition with_angle_roll_deg (vd : VehicleData) (x : Q) : VehicleData :=
  {| rpm := rpm vd; speed_kmh := speed_kmh vd; odometer_km := odometer_km vd;
     gear := gear vd; pos_x_m := pos_x_m vd; pos_y_m := pos_y_m vd;
     pos_z_m := pos_z_m vd; angle_roll_deg := x;
     angle_pitch_deg := angle_pitch_deg vd;
     angle_yaw_deg := angle_yaw_deg vd; roll_rate_degs := roll_rate_degs vd;
     pitch_rate_degs := pitch_rate_degs vd;
     yaw_rate_degs := yaw_rate_degs vd; clutch_value := clutch_value vd;
     break_value := break_value vd; accel_value := accel_value vd;
     steering_wheel_angle := steering_wheel_angle vd;
     vehicle_started := vehicle_started vd;
     maneuver_active := maneuver_active vd; dyn_attrs := dyn_attrs vd |}.

Definition with_angle_pitch_deg (vd : VehicleData) (x : Q) : VehicleData :=
  {| rpm := rpm vd; speed_kmh := speed_kmh vd; odometer_km := odometer_km vd;
     gear := gear vd; pos_x_m := pos_x_m vd; pos_y_m := pos_y_m vd;
     pos_z_m := pos_z_m vd; angle_roll_deg := angle_roll_deg vd;
     angle_pitch_deg := x; angle_yaw_deg := angle_yaw_deg vd;
     roll_rate_degs := roll_rate_degs vd;
     pitch_rate_degs := pitch_rate_degs vd;
     yaw_rate_degs := yaw_rate_degs vd; clutch_value := clutch_value vd;
     break_value := break_value vd; accel_value := accel_value vd;
     steering_wheel_angle := steering_wheel_angle vd;
     vehicle_started := vehicle_started vd;
     maneuver_active := maneuver_active vd; dyn_attrs := dyn_attrs vd |}.

Definition with_angle_yaw_deg (vd : VehicleData) (x : Q) : VehicleData :=
  {| rpm := rpm vd; speed_kmh := speed_kmh vd; odometer_km := odometer_km vd;
     gear := gear vd; pos_x_m := pos_x_m vd; pos_y_m := pos_y_m vd;
     pos_z_m := pos_z_m vd; angle_roll_deg := angle_roll_deg vd;
     angle_pitch_deg := angle_pitch_deg vd; angle_yaw_deg := x;
     roll_rate_degs := roll_rate_degs vd;
     pitch_rate_degs := pitch_rate_degs vd;
     yaw_rate_degs := yaw_rate_degs vd; clutch_value := clutch_value vd;
     break_value := break_value vd; accel_value := accel_value vd;
     steering_wheel_angle := steering_wheel_angle vd;
     vehicle_started := vehicle_started vd;
     maneuver_active := maneuver_active vd; dyn_attrs := dyn_attrs vd |}.

Definition with_roll_rate_degs (vd : VehicleData) (x : Q) : VehicleData :=
  {| rpm := rpm vd; speed_kmh := speed_kmh vd; odometer_km := odometer_km vd;
     gear := gear vd; pos_x_m := pos_x_m vd; pos_y_m := pos_y_m vd;
     pos_z_m := pos_z_m vd; angle_roll_deg := angle_roll_deg vd;
     angle_pitch_deg := angle_pitch_deg vd;
     angle_yaw_deg := angle_yaw_deg vd; roll_rate_degs := x;
     pitch_rate_degs := pitch_rate_degs vd;
     yaw_rate_degs := yaw_rate_degs vd; clutch_value := clutch_value vd;
     break_value := break_value vd; accel_value := accel_value vd;
     steering_wheel_angle := steering_wheel_angle vd;
     vehicle_started := vehicle_started vd;
     maneuver_active := maneuver_active vd; dyn_attrs := dyn_attrs vd |}.

Definition with_pitch_rate_degs (vd : VehicleData) (x : Q) : VehicleData :=
  {| rpm := rpm vd; speed_kmh := speed_kmh vd; odometer_km := odometer_km vd;
     gear := gear vd; pos_x_m := pos_x_m vd; pos_y_m := pos_y_m vd;
     pos_z_m := pos_z_m vd; angle_roll_deg := angle_roll_deg vd;
     angle_pitch_deg := angle_pitch_deg vd;
     angle_yaw_deg := angle_yaw_deg vd; roll_rate_degs := roll_rate_degs vd;
     pitch_rate_degs := x; yaw_rate_degs := yaw_rate_degs vd;
     clutch_value := clutch_value vd; break_value := break_value vd;
     accel_value := accel_value vd;
     steering_wheel_angle := steering_wheel_angle vd;
     vehicle_started := vehicle_started vd;
     maneuver_active := maneuver_active vd; dyn_attrs := dyn_attrs vd |}.

Definition with_yaw_rate_degs (vd : VehicleData) (x : Q) : VehicleData :=
  {| rpm := rpm vd; speed_kmh := speed_kmh vd; odometer_km := odometer_km vd;
     gear := gear vd; pos_x_m := pos_x_m vd; pos_y_m := pos_y_m vd;
     pos_z_m := pos_z_m vd; angle_roll_deg := angle_roll_deg vd;
     angle_pitch_deg := angle_pitch_deg vd;
     angle_yaw_deg := angle_yaw_deg vd; roll_rate_degs := roll_rate_degs vd;
     pitch_rate_degs := pitch_rate_degs vd; yaw_rate_degs := x;
     clutch_value := clutch_value vd; break_value := break_value vd;
     accel_value := accel_value vd;
     steering_wheel_angle := steering_wheel_angle vd;
     vehicle_started := vehicle_started vd;
     maneuver_active := maneuver_active vd; dyn_attrs := dyn_attrs vd |}.

Definition with_clutch_value (vd : VehicleData) (x : Q) : VehicleData :=
  {| rpm := rpm vd; speed_kmh := speed_kmh vd; odometer_km := odometer_km vd;
     gear := gear vd; pos_x_m := pos_x_m vd; pos_y_m := pos_y_m vd;
     pos_z_m := pos_z_m vd; angle_roll_deg := angle_roll_deg vd;
     angle_pitch_deg := angle_pitch_deg vd;
     angle_yaw_deg := angle_yaw_deg vd; roll_rate_degs := roll_rate_degs vd;
     pitch_rate_degs := pitch_rate_degs vd;
     yaw_rate_degs := yaw_rate_degs vd; clutch_value := x;
     break_value := break_value vd; accel_value := accel_value vd;
     steering_wheel_angle := steering_wheel_angle vd;
     vehicle_started := vehicle_started vd;
     maneuver_active := maneuver_active vd; dyn_attrs := dyn_attrs vd |}.

Definition with_break_value (vd : VehicleData) (x : Q) : VehicleData :=
  {| rpm := rpm vd; speed_kmh := speed_kmh vd; odometer_km := odometer_km vd;
     gear := gear vd; pos_x_m := pos_x_m vd; pos_y_m := pos_y_m vd;
     pos_z_m := pos_z_m vd; angle_roll_deg := angle_roll_deg vd;
     angle_pitch_deg := angle_pitch_deg vd;
     angle_yaw_deg := angle_yaw_deg vd; roll_rate_degs := roll_rate_degs vd;
     pitch_rate_degs := pitch_rate_degs vd;
     yaw_rate_degs := yaw_rate_degs vd; clutch_value := clutch_value vd;
     break_value := x; accel_value := accel_value vd;
     steering_wheel_angle := steering_wheel_angle vd;
     vehicle_started := vehicle_started vd;
     maneuver_active := maneuver_active vd; dyn_attrs := dyn_attrs vd |}.

Definition with_accel_value (vd : VehicleData) (x : Q) : VehicleData :=
  {| rpm := rpm vd; speed_kmh := speed_kmh vd; odometer_km := odometer_km vd;
     gear := gear vd; pos_x_m := pos_x_m vd; pos_y_m := pos_y_m vd;
     pos_z_m := pos_z_m vd; angle_roll_deg := angle_roll_deg vd;
     angle_pitch_deg := angle_pitch_deg vd;
     angle_yaw_deg := angle_yaw_deg vd; roll_rate_degs := roll_rate_degs vd;
     pitch_rate_degs := pitch_rate_degs vd;
     yaw_rate_degs := yaw_rate_degs vd; clutch_value := clutch_value vd;
     break_value := break_value vd; accel_value := x;
     steering_wheel_angle := steering_wheel_angle vd;
     vehicle_started := vehicle_started vd;
     maneuver_active := maneuver_active vd; dyn_attrs := dyn_attrs vd |}.

Definition with_steering_wheel_angle (vd : VehicleData) (x : Q) : VehicleData :=
  {| rpm := rpm vd; speed_kmh := speed_kmh vd; odometer_km := odometer_km vd;
     gear := gear vd; pos_x_m := pos_x_m vd; pos_y_m := pos_y_m vd;
     pos_z_m := pos_z_m vd; angle_roll_deg := angle_roll_deg vd;
     angle_pitch_deg := angle_pitch_deg vd;
     angle_yaw_deg := angle_yaw_deg vd; roll_rate_degs := roll_rate_degs vd;
     pitch_rate_degs := pitch_rate_degs vd;
     yaw_rate_degs := yaw_rate_degs vd; clutch_value := clutch_value vd;
     break_value := break_value vd; accel_value := accel_value vd;
     steering_wheel_angle := x; vehicle_started := vehicle_started vd;
     maneuver_active := maneuver_active vd; dyn_attrs := dyn_attrs vd |}.

Definition with_vehicle_started (vd : VehicleData) (x : bool) : VehicleData :=
  {| rpm := rpm vd; speed_kmh := speed_kmh vd; odometer_km := odometer_km vd;
     gear := gear vd; pos_x_m := pos_x_m vd; pos_y_m := pos_y_m vd;
     pos_z_m := pos_z_m vd; angle_roll_deg := angle_roll_deg vd;
     angle_pitch_deg := angle_pitch_deg vd;
     angle_yaw_deg := angle_yaw_deg vd; roll_rate_degs := roll_rate_degs vd;
     pitch_rate_degs := pitch_rate_degs vd;
     yaw_rate_degs := yaw_rate_degs vd; clutch_value := clutch_value vd;
     break_value := break_value vd; accel_value := accel_value vd;
     steering_wheel_angle := steering_wheel_angle vd; vehicle_started := x;
     maneuver_active := maneuver_active vd; dyn_attrs := dyn_attrs vd |}.

Definition with_maneuver_active (vd : VehicleData) (x : bool) : VehicleData :=
  {| rpm := rpm vd; speed_kmh := speed_kmh vd; odometer_km := odometer_km vd;
     gear := gear vd; pos_x_m := pos_x_m vd; pos_y_m := pos_y_m vd;
     pos_z_m := pos_z_m vd; angle_roll_deg := angle_roll_deg vd;
     angle_pitch_deg := angle_pitch_deg vd;
     angle_yaw_deg := angle_yaw_deg vd; roll_rate_degs := roll_rate_degs vd;
     pitch_rate_degs := pitch_rate_degs vd;
     yaw_rate_degs := yaw_rate_degs vd; clutch_value := clutch_value vd;
     break_value := break_value vd; accel_value := accel_value vd;
     steering_wheel_angle := steering_wheel_angle vd;
     vehicle_started := vehicle_started vd; maneuver_active := x;
     dyn_attrs := dyn_attrs vd |}.

Definition with_dyn_attrs (vd : VehicleData) (x : gmap string pyval) : VehicleData :=
  {| rpm := rpm vd; speed_kmh := speed_kmh vd; odometer_km := odometer_km vd;
     gear := gear vd; pos_x_m := pos_x_m vd; pos_y_m := pos_y_m vd;
     pos_z_m := pos_z_m vd; angle_roll_deg := angle_roll_deg vd;
     angle_pitch_deg := angle_pitch_deg vd;
     angle_yaw_deg := angle_yaw_deg vd; roll_rate_degs := roll_rate_degs vd;
     pitch_rate_degs := pitch_rate_degs vd;
     yaw_rate_degs := yaw_rate_degs vd; clutch_value := clutch_value vd;
     break_value := break_value vd; accel_value := accel_value vd;
     steering_wheel_angle := steering_wheel_angle vd;
     vehicle_started := vehicle_started vd;
     maneuver_active := maneuver_active vd; dyn_attrs := x |}.

(** [VehicleData.validate]; the model holds numbers only in the checked
    fields, so the [TypeError] handler of the source is not reachable. *)
Definition validate (self : VehicleData) : bool :=
  Py.le 0 (rpm self) && Py.le (rpm self) 8000 &&
  Py.le 0 (speed_kmh self) && Py.le (speed_kmh self) 300 &&
  Py.le (-780) (steering_wheel_angle self) &&
  Py.le (steering_wheel_angle self) 780 &&
  Py.le 0 (clutch_value self) && Py.le (clutch_value self) 100 &&
  Py.le 0 (break_value self) && Py.le (break_value self) 100 &&
  Py.le 0 (accel_value self) && Py.le (accel_value self) 100.

(** Field tables: name, reader, writer, grouped by annotated type. *)
Definition num_fields
  : list (string * ((VehicleData -> Q) * (VehicleData -> Q -> VehicleData))) :=
  [ ("rpm", (rpm, with_rpm)); ("speed_kmh", (speed_kmh, with_speed_kmh));
    ("odometer_km", (odometer_km, with_odometer_km));
    ("pos_x_m", (pos_x_m, with_pos_x_m)); ("pos_y_m", (pos_y_m, with_pos_y_m));
    ("pos_z_m", (pos_z_m, with_pos_z_m));
    ("angle_roll_deg", (angle_roll_deg, with_angle_roll_deg));
    ("angle_pitch_deg", (angle_pitch_deg, with_angle_pitch_deg));
    ("angle_yaw_deg", (angle_yaw_deg, with_angle_yaw_deg));
    ("roll_rate_degs", (roll_rate_degs, with_roll_rate_degs));
    ("pitch_rate_degs", (pitch_rate_degs, with_pitch_rate_degs));
    ("yaw_rate_degs", (yaw_rate_degs, with_yaw_rate_degs));
    ("clutch_value", (clutch_value, with_clutch_value));
    ("break_value", (break_value, with_break_value));
    ("accel_value", (accel_value, with_accel_value));
    ("steering_wheel_angle", (steering_wheel_angle, with_steering_wheel_angle)) ].

Definition str_fields
  : list (string * ((VehicleData -> string) * (VehicleData -> string -> VehicleData))) :=
  [ ("gear", (gear, with_gear)) ].

Definition bool_fields
  : list (string * ((VehicleData -> bool) * (VehicleData -> bool -> VehicleData))) :=
  [ ("vehicle_started", (vehicle_started, with_vehicle_started));
    ("maneuver_active", (maneuver_active, with_maneuver_active)) ].

Fixpoint assoc {A} (key : string) (l : list (string * A)) : option A :=
  match l with
  | [] => None
  | (k, a) :: rest => if String.eqb key k then Some a else assoc key rest
  end.

(** [getattr(vd, key)]. *)
Definition getattr (vd : VehicleData) (key : string) : result pyval :=
  match assoc key num_fields, assoc key str_fields, assoc key bool_fields with
  | Some (get, _), _, _ => Ok (PNum (get vd))
  | None, Some (get, _), _ => Ok (PStr (get vd))
  | None, None, Some (get, _) => Ok (PBool (get vd))
  | None, None, None =>
      match dyn_attrs vd !! key with
      | Some v => Ok v
      | None => Raise (AttributeError key)
      end
  end.

(** [setattr(vd, key, value)]: a declared field is overwritten, any other
    name becomes an attribute of the instance.  [None] marks a value of
    another type than the field's annotation: Python stores it, the typed
    record cannot, and such calls are left outside the model. *)
Definition setattr (vd : VehicleData) (key : string) (value : pyval)
  : option VehicleData :=
  match assoc key num_fields, assoc key str_fields, assoc key bool_fields with
  | Some (_, set), _, _ =>
      match value with PNum q => Some (set vd q) | _ => None end
  | None, Some (_, set), _ =>
      match value with PStr s => Some (set vd s) | _ => None end
  | None, None, Some (_, set) =>
      match value with PBool b => Some (set vd b) | _ => None end
  | None, None, None =>
      Some (with_dyn_attrs vd (<[key := value]> (dyn_attrs vd)))
  end.

(** [for key, value in items: setattr(vd, key, value)]. *)
Fixpoint setattrs (vd : VehicleData) (items : list (string * pyval))
  : option VehicleData :=
  match items with
  | [] => Some vd
  | (key, value) :: rest =>
      match setattr vd key value with
      | Some vd => setattrs vd rest
      | None => None
      end
  end.

(** ** core/control_handler.py: ControlHandler *)

Record ControlHandler := {
  vehicle_data : VehicleData;
  simulation_enabled : bool;
  is_running : bool;
  is_paused : bool;
  _last_update_time : Q
}.

Definition with_vehicle_data (self : ControlHandler) (vd : VehicleData)
  : ControlHandler :=
  {| vehicle_data := vd; simulation_enabled := simulation_enabled self;
     is_running := is_running self; is_paused := is_paused self;
     _last_update_time := _last_update_time self |}.

Definition with_last_update_time (self : ControlHandler) (t : Q)
  : ControlHandler :=
  {| vehicle_data := vehicle_data self;
     simulation_enabled := simulation_enabled self;
     is_running := is_running self; is_paused := is_paused self;
     _last_update_time := t |}.

(** [all_maneuver_presets], assigned once in [__init__]. *)
Definition standard_cruise : gmap string Q :=
  <["speed_kmh" := 60]> (<["steering_wheel_angle" := 0]> ∅).
Definition sharp_turn : gmap string Q :=
  <["steering_wheel_angle" := 300]> (<["speed_kmh" := 30]> ∅).
Definition emergency_stop : gmap string Q :=
  <["break_value" := 100]> (<["speed_kmh" := 0]> ∅).

Definition all_maneuver_presets : gmap string (gmap string Q) :=
  <["Standard Cruise" := standard_cruise]>
  (<["Sharp Turn" := sharp_turn]>
  (<["Emergency Stop" := emergency_stop]> ∅)).

(** [__init__]; [now] is the instant read by [time.time()]. *)
Definition ControlHandler_init (vd : VehicleData) (enabled : bool) (now : Q)
  : ControlHandler * list log_record :=
  ({| vehicle_data := vd; simulation_enabled := enabled; is_running := true;
      is_paused := false; _last_update_time := now |},
   [(INFO, "ControlHandler initialized.")]).

(** What a call that may raise leaves behind. *)
Record run := {
  raised : option exn;
  after : ControlHandler;
  logged : list log_record
}.

Definition driving_gears : list string :=
  ["D"; "R"; "L"; "1"; "2"; "3"; "4"; "5"; "6"].

(** "RPM simulation" (lines 36-42). *)
Definition rpm_simulation (vd : VehicleData) (delta_time : Q) : VehicleData :=
  let vd :=
    if Py.gt (accel_value vd) 0 then
      with_rpm vd (Py.min 8000 (rpm vd + accel_value vd * 5 * delta_time))
    else if Py.gt (break_value vd) 0 then
      with_rpm vd (Py.max 0 (rpm vd - break_value vd * 2 * delta_time))
    else
      with_rpm vd (Py.max 0 (rpm vd - 100 * delta_time)) in
  with_rpm vd (Py.round (rpm vd) 0).

(** [self.all_maneuver_presets.get(name, {})]. *)
Definition presets_get (name : pyval) : result (gmap string Q) :=
  match name with
  | PStr s => Ok (Py.get all_maneuver_presets s ∅)
  | PDict _ => Raise (TypeError "unhashable type: 'dict'")
  | _ => Ok ∅
  end.

(** Lines 49-52: the preset written over the three fields it may name. *)
Definition apply_preset (vd : VehicleData) (preset : gmap string Q)
  : VehicleData :=
  if Py.truthy preset then
    let vd := with_speed_kmh vd (Py.get preset "speed_kmh" (speed_kmh vd)) in
    let vd := with_steering_wheel_angle vd
                (Py.get preset "steering_wheel_angle" (steering_wheel_angle vd)) in
    with_break_value vd (Py.get preset "break_value" (break_value vd))
  else vd.

(** The [if/elif/else] of lines 46-61, before the rounding of line 62. *)
Definition speed_branch (vd : VehicleData) (delta_time : Q)
  : result VehicleData :=
  if maneuver_active vd then
    match getattr vd "maneuver_name" with
    | Ok name =>
        match presets_get name with
        | Ok preset => Ok (apply_preset vd preset)
        | Raise e => Raise e
        end
    | Raise e => Raise e
    end
  else if Py.gt (accel_value vd) 0 && Py.eq (break_value vd) 0
          && Py.str_in (gear vd) driving_gears then
    Ok (with_speed_kmh vd
          (Py.min 300 (speed_kmh vd + (accel_value vd / 10) * delta_time * 5)))
  else if Py.gt (break_value vd) 0 then
    Ok (with_speed_kmh vd
          (Py.max 0 (speed_kmh vd - (break_value vd / 5) * delta_time * 5)))
  else if Py.str_in (gear vd) driving_gears && Py.gt (speed_kmh vd) 0 then
    Ok (with_speed_kmh vd (Py.max 0 (speed_kmh vd - 5 * delta_time)))
  else if Py.str_in (gear vd) ["N"; "P"] then
    Ok (with_speed_kmh vd 0.0)
  else Ok vd.

(** "Speed simulation" (lines 45-62). *)
Definition speed_simulation (vd : VehicleData) (delta_time : Q)
  : result VehicleData :=
  match speed_branch vd delta_time with
  | Ok vd => Ok (with_speed_kmh vd (Py.round (speed_kmh vd) 1))
  | r => r
  end.

(** "Odometer" (lines 65-67). *)
Definition odometer_update (vd : VehicleData) (delta_time : Q) : VehicleData :=
  if Py.gt (speed_kmh vd) 0 then
    let vd := with_odometer_km vd
                (odometer_km vd + (speed_kmh vd / 3600) * delta_time) in
    with_odometer_km vd (Py.round (odometer_km vd) 3)
  else vd.

(** "Position and angles", "Rates" (lines 70-80); [u 0] to [u 8] are the
    nine draws in call order. *)
Definition pose_update (vd : VehicleData) (u : nat -> Q) : VehicleData :=
  let vd := with_pos_x_m vd
              (Py.round (pos_x_m vd + Py.uniform (-0.05) 0.05 (u 0%nat)) 3) in
  let vd := with_pos_y_m vd
              (Py.round (pos_y_m vd + Py.uniform (-0.05) 0.05 (u 1%nat)) 3) in
  let vd := with_pos_z_m vd
              (Py.round (pos_z_m vd + Py.uniform (-0.05) 0.05 (u 2%nat)) 3) in
  let vd := with_angle_roll_deg vd (Py.round (Py.uniform (-5) 5 (u 3%nat)) 1) in
  let vd := with_angle_pitch_deg vd (Py.round (Py.uniform (-5) 5 (u 4%nat)) 1) in
  let vd := with_angle_yaw_deg vd
              (Py.round (Py.uniform (-180) 180 (u 5%nat)) 1) in
  let vd := with_roll_rate_degs vd
              (Py.round (23.40 + Py.uniform (-1) 1 (u 6%nat)) 1) in
  let vd := with_pitch_rate_degs vd
              (Py.round (23.40 + Py.uniform (-1) 1 (u 7%nat)) 1) in
  with_yaw_rate_degs vd (Py.round (166.7 + Py.uniform (-10) 10 (u 8%nat)) 1).

(** "Ensure values stay within limits" (lines 83-88). *)
Definition clamp_limits (vd : VehicleData) : VehicleData :=
  let vd := with_rpm vd (Py.max 0 (Py.min 8000 (rpm vd))) in
  let vd := with_speed_kmh vd (Py.max 0 (Py.min 300 (speed_kmh vd))) in
  let vd := with_clutch_value vd (Py.max 0 (Py.min 100 (clutch_value vd))) in
  let vd := with_break_value vd (Py.max 0 (Py.min 100 (break_value vd))) in
  let vd := with_accel_value vd (Py.max 0 (Py.min 100 (accel_value vd))) in
  with_steering_wheel_angle vd
    (Py.max (-780) (Py.min 780 (steering_wheel_angle vd))).

(** The body guarded by [if self.vehicle_data.vehicle_started] (lines
    34-80).  The only statement that can raise is the first one of the
    speed simulation; the record returned with the exception carries the
    [rpm] assigned before it. *)
Definition started_body (vd : VehicleData) (delta_time : Q) (u : nat -> Q)
  : option exn * VehicleData :=
  let vd := rpm_simulation vd delta_time in
  match speed_simulation vd delta_time with
  | Raise e => (Some e, vd)
  | Ok vd => (None, pose_update (odometer_update vd delta_time) u)
  end.

(** [simulate_vehicle_data]. *)
Definition simulate_vehicle_data (self : ControlHandler) (now : Q)
    (u : nat -> Q) : run :=
  if negb (simulation_enabled self) || negb (is_running self)
     || is_paused self then
    {| raised := None; after := self; logged := [] |}
  else
    let current_time := now in
    let delta_time := current_time - _last_update_time self in
    let self := with_last_update_time self current_time in
    let finish vd :=
      {| raised := None; after := with_vehicle_data self (clamp_limits vd);
         logged := [(DEBUG, "Vehicle data simulated.")] |} in
    if vehicle_started (vehicle_data self) then
      match started_body (vehicle_data self) delta_time u with
      | (Some e, vd) =>
          {| raised := Some e; after := with_vehicle_data self vd;
             logged := [] |}
      | (None, vd) => finish vd
      end
    else finish (vehicle_data self).

Definition with_flags (self : ControlHandler) (running paused : bool)
  : ControlHandler :=
  {| vehicle_data := vehicle_data self;
     simulation_enabled := simulation_enabled self;
     is_running := running; is_paused := paused;
     _last_update_time := _last_update_time self |}.

(** [set_gear]. *)
Definition set_gear (self : ControlHandler) (gear : string)
  : ControlHandler * list log_record :=
  if vehicle_started (vehicle_data self) || Py.str_in gear ["P"; "N"] then
    (with_vehicle_data self (with_gear (vehicle_data self) gear),
     [(INFO, "Gear set to: " +:+ gear +:+ ".")])
  else
    (self, [(WARNING, "Cannot set gear " +:+ gear +:+ ": Vehicle is off.")]).

(** A [str] argument or [None], as the value stored in an attribute and
    as the text an f-string prints. *)
Definition opt_str_val (s : option string) : pyval :=
  match s with Some s => PStr s | None => PNone end.
Definition opt_str_text (s : option string) : string :=
  match s with Some s => s | None => "None" end.

(** [start_maneuver]; the default argument is [None]. *)
Definition start_maneuver (self : ControlHandler)
    (maneuver_name : option string) : ControlHandler * list log_record :=
  if vehicle_started (vehicle_data self) then
    let vd := with_maneuver_active (vehicle_data self) true in
    let vd := with_dyn_attrs vd
                (<["maneuver_name" := opt_str_val maneuver_name]> (dyn_attrs vd)) in
    (with_vehicle_data self vd,
     [(INFO, "Maneuver started: " +:+ opt_str_text maneuver_name)])
  else (self, [(WARNING, "Cannot start maneuver: Vehicle is off.")]).

(** [stop_maneuver]. *)
Definition stop_maneuver (self : ControlHandler)
  : ControlHandler * list log_record :=
  let vd := with_maneuver_active (vehicle_data self) false in
  let vd := with_dyn_attrs vd (<["maneuver_name" := PNone]> (dyn_attrs vd)) in
  (with_vehicle_data self vd, [(INFO, "Maneuver stopped.")]).

(** [reset_vehicle]; the items of the dictionary are visited in the order
    [map_to_list] gives them (the keys are distinct, so every order
    assigns the same attributes).  [None]: see [setattr]. *)
Definition reset_vehicle (self : ControlHandler)
    (initial_data_dict : gmap string pyval) (now : Q)
  : option (ControlHandler * list log_record) :=
  match setattrs (vehicle_data self) (map_to_list initial_data_dict) with
  | None => None
  | Some vd =>
      let vd := with_vehicle_started vd false in
      let vd := with_maneuver_active vd false in
      let vd := with_dyn_attrs vd (<["maneuver_name" := PNone]> (dyn_attrs vd)) in
      Some ({| vehicle_data := vd;
               simulation_enabled := simulation_enabled self;
               is_running := true; is_paused := false;
               _last_update_time := now |},
            [(INFO, "Vehicle reset performed.")])
  end.

(** [toggle_pause]. *)
Definition toggle_pause (self : ControlHandler)
  : ControlHandler * list log_record :=
  let self := with_flags self (is_running self) (negb (is_paused self)) in
  (self, [(INFO, "Simulation "
                 +:+ (if is_paused self then "paused" else "resumed") +:+ ".")]).

(** Lines 137-140 and 163-165: engine off. *)
Definition power_off (vd : VehicleData) : VehicleData :=
  let vd := with_rpm vd 0.0 in
  let vd := with_speed_kmh vd 0.0 in
  with_gear vd "P".

(** [stop_simulation]. *)
Definition stop_simulation (self : ControlHandler)
  : ControlHandler * list log_record :=
  let self := with_flags self false false in
  let vd := power_off (with_vehicle_started (vehicle_data self) false) in
  (with_vehicle_data self vd, [(INFO, "Simulation stopped.")]).

(** The four direct setters.  Their DEBUG record prints the number and is
    left out. *)
Definition set_clutch_value (self : ControlHandler) (value : Q) : ControlHandler :=
  with_vehicle_data self (with_clutch_value (vehicle_data self) value).
Definition set_break_value (self : ControlHandler) (value : Q) : ControlHandler :=
  with_vehicle_data self (with_break_value (vehicle_data self) value).
Definition set_accel_value (self : ControlHandler) (value : Q) : ControlHandler :=
  with_vehicle_data self (with_accel_value (vehicle_data self) value).
Definition set_steering_wheel_angle (self : ControlHandler) (angle : Q) : ControlHandler :=
  with_vehicle_data self (with_steering_wheel_angle (vehicle_data self) angle).

(** [toggle_vehicle_power]. *)
Definition toggle_vehicle_power (self : ControlHandler)
  : ControlHandler * list log_record :=
  let vd := with_vehicle_started (vehicle_data self)
              (negb (vehicle_started (vehicle_data self))) in
  let vd := if negb (vehicle_started vd) then power_off vd else vd in
  (with_vehicle_data self vd,
   [(INFO, "Vehicle power toggled to: "
           +:+ (if vehicle_started vd then "ON" else "OFF") +:+ ".")]).

(** ** core/data_loader.py: ConfigManager

    The file system is a finite map from paths to files.  A file either
    holds a JSON document (what [json.dump] wrote, what [json.load] gives
    back) or text that [json.load] rejects.  Directories are implicit:
    [os.makedirs] succeeds on every non-empty directory name; a name that
    ends with ['/'] names a directory and cannot be opened as a file; a
    file under any other name is opened, read and written without error.
    A file is named by its path as written: the paths of one disk are
    spelled one way. *)

Inductive file :=
| JsonDoc (v : pyval)
| Malformed (why : string).

Record io (A : Type) := {
  value : result A;
  disk : gmap string file;
  records : list log_record
}.
Arguments value {A} _.
Arguments disk {A} _.
Arguments records {A} _.

Module os.

(** Index just past the last ['/'] of [p], 0 when there is none:
    [p.rfind('/') + 1]. *)
Fixpoint after_last_sep (p : string) : nat :=
  match p with
  | EmptyString => 0
  | String c rest =>
      match after_last_sep rest with
      | O => if Ascii.eqb c "/"%char then 1 else 0
      | S n => S (S n)
      end
  end.

Fixpoint all_sep (s : string) : bool :=
  match s with
  | EmptyString => true
  | String c rest => Ascii.eqb c "/"%char && all_sep rest
  end.

(** [s.rstrip('/')]. *)
Fixpoint rstrip_sep (s : string) : string :=
  match s with
  | EmptyString => EmptyString
  | String c rest =>
      match rstrip_sep rest with
      | EmptyString => if Ascii.eqb c "/"%char then EmptyString else String c EmptyString
      | rest' => String c rest'
      end
  end.

(** Truth value of a string: non-empty. *)
Definition nonempty (s : string) : bool :=
  match s with EmptyString => false | String _ _ => true end.

(** [posixpath.dirname]. *)
Definition dirname (p : string) : string :=
  let head := String.substring 0 (after_last_sep p) p in
  if nonempty head && negb (all_sep head) then rstrip_sep head
  else head.

(** [os.makedirs(name, exist_ok=True)]: the empty name is refused. *)
Definition makedirs (name : string) : option exn :=
  if nonempty name then None else Some (FileNotFoundError name).

(** Whether [p] ends with ['/']. *)
Fixpoint ends_with_sep (p : string) : bool :=
  match p with
  | EmptyString => false
  | String c rest =>
      match rest with
      | EmptyString => Ascii.eqb c "/"%char
      | String _ _ => ends_with_sep rest
      end
  end.

(** [os.path.exists]. *)
Definition exists_ (fs : gmap string file) (p : string) : bool :=
  match fs !! p with Some _ => true | None => false end.

End os.

Record ConfigManager := {
  config_file : string;
  default_config : gmap string pyval
}.

Definition default_vehicle_data : gmap string pyval :=
  list_to_map
    [ ("rpm", PNum 1500); ("speed_kmh", PNum 45.0); ("odometer_km", PNum 0.0);
      ("gear", PStr "N"); ("clutch_value", PNum 0.0);
      ("break_value", PNum 0.0); ("accel_value", PNum 4.6);
      ("pos_x_m", PNum 3400.0); ("pos_y_m", PNum 3400.0);
      ("pos_z_m", PNum 3400.0); ("angle_roll_deg", PNum 0.0);
      ("angle_pitch_deg", PNum 0.0); ("angle_yaw_deg", PNum 0.0);
      ("roll_rate_degs", PNum 3.4); ("pitch_rate_degs", PNum 3.4);
      ("yaw_rate_degs", PNum 166.7); ("steering_wheel_angle", PNum 60.0);
      ("vehicle_started", PBool false); ("maneuver_active", PBool false) ].

(** [_get_default_config]. *)
Definition _get_default_config : gmap string pyval :=
  list_to_map
    [ ("refresh_rate", PNum 1000); ("simulation_enabled", PBool true);
      ("debug_mode", PBool false); ("vehicle_data", PDict default_vehicle_data) ].

(** [ConfigManager.__init__]; the default argument is ['data/config.json']. *)
Definition ConfigManager_init (config_file_path : option string)
  : ConfigManager :=
  {| config_file := default "data/config.json" config_file_path;
     default_config := _get_default_config |}.

(** [file_path or self.config_file]: [None] and the empty string are
    false. *)
Definition path_or (file_path : option string) (fallback : string) : string :=
  match file_path with
  | Some p => if os.nonempty p then p else fallback
  | None => fallback
  end.

(** [save_config].  The directory is made before the [try] (line 106),
    so its exception leaves the function.  Inside the [try] (lines
    107-110) the file is opened for writing: on a name that ends with
    ['/'] that is an IsADirectoryError, which the handler (lines 111-112)
    logs before the function returns, nothing having been written. *)
Definition save_config (self : ConfigManager) (config : gmap string pyval)
    (file_path : option string) (fs : gmap string file) : io unit :=
  let config_file := path_or file_path (config_file self) in
  match os.makedirs (os.dirname config_file) with
  | Some e => {| value := Raise e; disk := fs; records := [] |}
  | None =>
      if os.ends_with_sep config_file then
        {| value := Ok tt; disk := fs;
           records := [(ERROR, "Error saving configuration to " +:+ config_file
                               +:+ ": [Errno 21] Is a directory: '"
                               +:+ config_file +:+ "'")] |}
      else
        {| value := Ok tt;
           disk := <[config_file := JsonDoc (PDict config)]> fs;
           records := [(INFO, "Configuration saved to " +:+ config_file)] |}
  end.

(** [load_config].  [os.path.exists] looks the path up as it is written.
    A file that is there is opened and read; of the two handlers the one
    for a document that does not parse (lines 96-98) is entered, with the
    defaults returned from memory. *)
Definition load_config (self : ConfigManager) (file_path : option string)
    (fs : gmap string file) : io pyval :=
  let config_file := path_or file_path (config_file self) in
  match fs !! config_file with
  | None =>
      let warn := (WARNING, "Config file " +:+ config_file
                            +:+ " not found. Creating with default values.") in
      match os.makedirs (os.dirname config_file) with
      | Some e => {| value := Raise e; disk := fs; records := [warn] |}
      | None =>
          let saved := save_config self (default_config self) None fs in
          match value saved with
          | Raise e =>
              {| value := Raise e; disk := disk saved;
                 records := warn :: records saved |}
          | Ok _ =>
              {| value := Ok (PDict (default_config self)); disk := disk saved;
                 records := warn :: records saved |}
          end
      end
  | Some (JsonDoc config) =>
      {| value := Ok config; disk := fs;
         records := [(INFO, "Configuration loaded from " +:+ config_file)] |}
  | Some (Malformed e) =>
      {| value := Ok (PDict (default_config self)); disk := fs;
         records := [(ERROR, "Error parsing config file " +:+ config_file
                             +:+ ": " +:+ e
                             +:+ ". Using default configuration.")] |}
  end.

(** ** main.py: building and storing a VehicleData *)

(** The dataclass defaults. *)
Definition VehicleData_default : VehicleData :=
  {| rpm := 0.0; speed_kmh := 0.0; odometer_km := 0.0; gear := "N";
     pos_x_m := 0.0; pos_y_m := 0.0; pos_z_m := 0.0;
     angle_roll_deg := 0.0; angle_pitch_deg := 0.0; angle_yaw_deg := 0.0;
     roll_rate_degs := 0.0; pitch_rate_degs := 0.0; yaw_rate_degs := 0.0;
     clutch_value := 0.0; break_value := 0.0; accel_value := 0.0;
     steering_wheel_angle := 0.0; vehicle_started := false;
     maneuver_active := false; dyn_attrs := ∅ |}.

Definition is_field (key : string) : bool :=
  match assoc key num_fields, assoc key str_fields, assoc key bool_fields with
  | None, None, None => false
  | _, _, _ => true
  end.

(** The constructor, called with the items of [kwargs] as keyword
    arguments: a keyword that is not a field is refused, a field without
    keyword keeps its default.  [None]: see [setattr]. *)
Definition VehicleData_init (kwargs : gmap string pyval)
  : option (result VehicleData) :=
  match filter (fun kv => negb (is_field (fst kv))) (map_to_list kwargs) with
  | (key, _) :: _ =>
      Some (Raise (TypeError ("unexpected keyword argument '" +:+ key +:+ "'")))
  | [] =>
      match setattrs VehicleData_default (map_to_list kwargs) with
      | Some vd => Some (Ok vd)
      | None => None
      end
  end.

(** The generated [__eq__]: the tuples of the nineteen fields compared.
    The numeric fields are numbers, each equal to itself; a NaN, which
    Python compares unequal to itself, is not a value of these fields. *)
Definition VehicleData_eq (a b : VehicleData) : bool :=
  forallb (fun f => Py.eq (fst (snd f) a) (fst (snd f) b)) num_fields &&
  forallb (fun f => String.eqb (fst (snd f) a) (fst (snd f) b)) str_fields &&
  forallb (fun f => Bool.eqb (fst (snd f) a) (fst (snd f) b)) bool_fields.

(** The dictionary literal of [save_config_dialog] (lines 531-551). *)
Definition vehicle_data_record (vd : VehicleData) : gmap string pyval :=
  list_to_map
    [ ("rpm", PNum (rpm vd)); ("speed_kmh", PNum (speed_kmh vd));
      ("odometer_km", PNum (odometer_km vd)); ("gear", PStr (gear vd));
      ("pos_x_m", PNum (pos_x_m vd)); ("pos_y_m", PNum (pos_y_m vd));
      ("pos_z_m", PNum (pos_z_m vd));
      ("angle_roll_deg", PNum (angle_roll_deg vd));
      ("angle_pitch_deg", PNum (angle_pitch_deg vd));
      ("angle_yaw_deg", PNum (angle_yaw_deg vd));
      ("roll_rate_degs", PNum (roll_rate_degs vd));
      ("pitch_rate_degs", PNum (pitch_rate_degs vd));
      ("yaw_rate_degs", PNum (yaw_rate_degs vd));
      ("clutch_value", PNum (clutch_value vd));
      ("break_value", PNum (break_value vd));
      ("accel_value", PNum (accel_value vd));
      ("steering_wheel_angle", PNum (steering_wheel_angle vd));
      ("vehicle_started", PBool (vehicle_started vd));
      ("maneuver_active", PBool (maneuver_active vd)) ].

Definition exn_text (e : exn) : string :=
  match e with
  | AttributeError s | TypeError s | FileNotFoundError s | JSONDecodeError s => s
  end.

(** [save_config_dialog], [filename] being the answer of the file dialog
    (empty when cancelled).  Returns the panel's configuration record
    next to the effects; an exception is caught and logged. *)
Definition save_config_dialog (cm : ConfigManager) (config : gmap string pyval)
    (vd : VehicleData) (filename : string) (fs : gmap string file)
  : gmap string pyval * io unit :=
  if os.nonempty filename then
    let config := <["vehicle_data" := PDict (vehicle_data_record vd)]> config in
    let saved := save_config cm config (Some filename) fs in
    (config,
     {| value := Ok tt; disk := disk saved;
        records :=
          records saved ++
          match value saved with
          | Ok _ => [(INFO, "Configuration saved to " +:+ filename)]
          | Raise e => [(ERROR, "Error saving configuration: " +:+ exn_text e)]
          end |})
  else (config, {| value := Ok tt; disk := fs; records := [] |}).

(** Line 508: the constructor applied to the items of
    [new_config.get("vehicle_data", {})]. *)
Definition vehicle_data_of_config (new_config : pyval)
  : option (result VehicleData) :=
  match new_config with
  | PDict c =>
      match Py.get c "vehicle_data" (PDict ∅) with
      | PDict kwargs => VehicleData_init kwargs
      | _ => Some (Raise (TypeError "argument after ** must be a mapping"))
      end
  | _ => Some (Raise (AttributeError "get"))
  end.

(** Lines 506-508 of [load_config_dialog]: the configuration read from
    [filename] and the VehicleData built from it. *)
Definition load_vehicle_data (cm : ConfigManager) (filename : string)
    (fs : gmap string file) : option (result VehicleData) :=
  match value (load_config cm (Some filename) fs) with
  | Ok new_config => vehicle_data_of_config new_config
  | Raise e => Some (Raise e)
  end.

(** ** Vocabulary of the properties *)

(** The stepper is active: it is enabled, running and not paused. *)
Definition active (self : ControlHandler) : bool :=
  simulation_enabled self && is_running self && negb (is_paused self).

(** The six documented ranges. *)
Definition within_limits (vd : VehicleData) : Prop :=
  0 <= rpm vd <= 8000 /\ 0 <= speed_kmh vd <= 300 /\
  0 <= clutch_value vd <= 100 /\ 0 <= break_value vd <= 100 /\
  0 <= accel_value vd <= 100 /\ -780 <= steering_wheel_angle vd <= 780.

(** A VehicleData as the constructor leaves it when a stored configuration
    has both flags set: [maneuver_name] was never assigned. *)
Definition vd_flags_loaded : option (result VehicleData) :=
  VehicleData_init
    (list_to_map [ ("vehicle_started", PBool true);
                   ("maneuver_active", PBool true);
                   ("accel_value", PNum 150) ]).

Definition handler_flags_loaded : option ControlHandler :=
  match vd_flags_loaded with
  | Some (Ok vd) => Some (fst (ControlHandler_init vd true 0))
  | _ => None
  end.

(** [name] (a string, or [None]) is not a key of the catalogue. *)
Definition not_in_catalogue (name : option string) : Prop :=
  match name with
  | Some s => all_maneuver_presets !! s = None
  | None => True
  end.

(** The clamp applied to one field by lines 83-88. *)
Definition clamp (lo hi x : Q) : Q := Py.max lo (Py.min hi x).

(** A started, active handler in gear D at 80 km/h with the accelerator
    half pressed. *)
Definition handler_driving : ControlHandler :=
  {| vehicle_data :=
       with_vehicle_started
         (with_gear (with_accel_value (with_speed_kmh VehicleData_default 80) 50) "D")
         true;
     simulation_enabled := true; is_running := true; is_paused := false;
     _last_update_time := 0 |}.

(** A started, active handler whose speed carries two decimals, in a
    maneuver whose name the catalogue does not know. *)
Definition handler_unknown_maneuver : ControlHandler :=
  {| vehicle_data :=
       with_dyn_attrs
         (with_maneuver_active
            (with_vehicle_started (with_speed_kmh VehicleData_default 45.67) true)
            true)
         (<["maneuver_name" := PStr "Barrel Roll"]> ∅);
     simulation_enabled := true; is_running := true; is_paused := false;
     _last_update_time := 0 |}.

(** ** The drivetrain update law, in the words of the specification

    Section 4.1, items 1 and 2, for a started vehicle with no active
    maneuver: "capped at" is the smaller of the two, "floored at" the
    larger. *)

Definition is_pos (x : Q) : bool := if Qlt_le_dec 0 x then true else false.
Definition is_zero (x : Q) : bool := if Qeq_dec x 0 then true else false.

Definition spec_driving_gear (g : string) : bool :=
  bool_decide (g ∈ ["D"; "R"; "L"; "1"; "2"; "3"; "4"; "5"; "6"]).

Definition spec_rpm (rpm accel brake dt : Q) : Q :=
  Py.round
    (if is_pos accel then Qmin (rpm + accel * 5 * dt) 8000
     else if is_pos brake then Qmax (rpm - brake * 2 * dt) 0
     else Qmax (rpm - 100 * dt) 0)
    0.

Definition spec_speed (speed accel brake : Q) (g : string) (dt : Q) : Q :=
  Py.round
    (if is_pos accel && is_zero brake && spec_driving_gear g then
       Qmin (speed + (accel / 10) * dt * 5) 300
     else if is_pos brake then Qmax (speed - (brake / 5) * dt * 5) 0
     else if spec_driving_gear g && is_pos speed then Qmax (speed - 5 * dt) 0
     else if bool_decide (g ∈ ["N"; "P"]) then 0
     else speed)
    1.

(** ** Sequences of calls *)

(** The handler after a sequence of calls of [simulate_vehicle_data],
    each given with the instant it reads and its draws.  A call that
    raises leaves the handler as the exception found it. *)
Fixpoint run_steps (self : ControlHandler) (calls : list (Q * (nat -> Q)))
  : ControlHandler :=
  match calls with
  | [] => self
  | (now, u) :: rest =>
      run_steps (after (simulate_vehicle_data self now u)) rest
  end.

(** Every call reads an instant that is not before the timestamp the
    handler holds: each elapsed time is non-negative. *)
Fixpoint elapsed_nonneg (self : ControlHandler) (calls : list (Q * (nat -> Q)))
  : Prop :=
  match calls with
  | [] => True
  | (now, u) :: rest =>
      _last_update_time self <= now /\
      elapsed_nonneg (after (simulate_vehicle_data self now u)) rest
  end.

(** The number has at most three decimals. *)
Definition three_decimals (q : Q) : Prop := Py.round q 3 == q.

(** A started, active handler in gear D at 45 km/h whose odometer was
    loaded with a fourth decimal. *)
Definition handler_fine_odometer : ControlHandler :=
  {| vehicle_data :=
       with_vehicle_started
         (with_gear
            (with_odometer_km (with_speed_kmh VehicleData_default 45.0) 0.0004)
            "D")
         true;
     simulation_enabled := true; is_running := true; is_paused := false;
     _last_update_time := 0 |}.

(** ** Typed dictionaries *)

(** [value] has the type the annotation of field [key] asks for; any
    value goes into an undeclared attribute. *)
Definition typed (key : string) (value : pyval) : bool :=
  match assoc key num_fields, assoc key str_fields, assoc key bool_fields with
  | Some _, _, _ => match value with PNum _ => true | _ => false end
  | None, Some _, _ => match value with PStr _ => true | _ => false end
  | None, None, Some _ => match value with PBool _ => true | _ => false end
  | None, None, None => true
  end.

(** The attributes [reset_vehicle] assigns itself after the loop. *)
Definition forced_by_reset : list string :=
  ["vehicle_started"; "maneuver_active"; "maneuver_name"].

(** The fields [validate] reads. *)
Definition validated_fields : list string :=
  ["rpm"; "speed_kmh"; "steering_wheel_angle"; "clutch_value"; "break_value";
   "accel_value"].

(** ** Logged records *)

(** No record of [l] is at level ERROR. *)
Definition no_error (l : list log_record) : bool :=
  forallb (fun r => match fst r with ERROR => false | _ => true end) l.

(** ** Names without directory part *)

(** No character of [p] is the separator. *)
Fixpoint no_sep (p : string) : bool :=
  match p with
  | EmptyString => true
  | String c rest => negb (Ascii.eqb c "/"%char) && no_sep rest
  end.

(** ** main.py: the panel's configuration across sessions

    The panel holds [self.config], a dictionary that is either the very
    object [self.config_manager.default_config] (when [load_config]
    returned the defaults) or an object of its own (when the file was
    parsed).  [own_config] is [None] in the first case: a write through
    [self.config] is then a write to the manager's defaults.
    [self.vehicle_data] and [self.control_handler.vehicle_data] are one
    object, held here by the handler.  Windows, widgets and the stepping
    thread are left out. *)
Record VehicleControlPanel := {
  config_manager : ConfigManager;
  own_config : option (gmap string pyval);
  control_handler : ControlHandler;
  debug_mode : bool
}.

(** [self.config]. *)
Definition panel_config (self : VehicleControlPanel) : gmap string pyval :=
  match own_config self with
  | Some c => c
  | None => default_config (config_manager self)
  end.

(** The object [self.config] after its entries were changed to [c]. *)
Definition panel_set_config (self : VehicleControlPanel)
    (c : gmap string pyval) : VehicleControlPanel :=
  match own_config self with
  | Some _ =>
      {| config_manager := config_manager self; own_config := Some c;
         control_handler := control_handler self;
         debug_mode := debug_mode self |}
  | None =>
      {| config_manager :=
           {| config_file := config_file (config_manager self);
              default_config := c |};
         own_config := None;
         control_handler := control_handler self;
         debug_mode := debug_mode self |}
  end.

(** The dictionary literal of lines 40-42. *)
Definition start_positions : gmap string pyval :=
  list_to_map
    [ ("pos_x_m", PNum 0.340); ("pos_y_m", PNum 0.450);
      ("pos_z_m", PNum 0.560) ].

Definition as_bool (v : pyval) : option bool :=
  match v with PBool b => Some b | _ => None end.

(** [VehicleControlPanel.__init__], lines 37-48, on the disk [fs] at the
    instant [now]; returns the disk [load_config] leaves.  [d.update(e)] is
    [e ∪ d].  The outer [None] marks a stored value of another type than
    the model's fields hold (see [setattr]). *)
Definition panel_init (fs : gmap string file) (now : Q)
  : option (result VehicleControlPanel) * gmap string file :=
  let cm := ConfigManager_init None in
  let r := load_config cm None fs in
  let is_default :=
    match fs !! config_file cm with Some (JsonDoc _) => false | _ => true end in
  (match value r with
   | Raise e => Some (Raise e)
   | Ok (PDict c) =>
       match Py.get c "vehicle_data" (PDict ∅) with
       | PDict stored =>
           let kwargs := start_positions ∪ stored in
           let c := <["vehicle_data" := PDict kwargs]> c in
           match VehicleData_init kwargs with
           | Some (Ok vd) =>
               match as_bool (Py.get c "simulation_enabled" (PBool true)),
                     as_bool (Py.get c "debug_mode" (PBool false)) with
               | Some enabled, Some debug =>
                   Some (Ok
                     {| config_manager :=
                          if is_default
                          then {| config_file := config_file cm;
                                  default_config := c |}
                          else cm;
                        own_config := if is_default then None else Some c;
                        control_handler :=
                          fst (ControlHandler_init vd enabled now);
                        debug_mode := debug |})
               | _, _ => None
               end
           | Some (Raise e) => Some (Raise e)
           | None => None
           end
       | _ => Some (Raise (AttributeError "update"))
       end
   | Ok _ => Some (Raise (AttributeError "setdefault"))
   end,
   disk r).

(** The [try] block of [on_closing] (lines 582-607): the vehicle data and
    the two switches are written into [self.config], which is saved to the
    manager's own path; an exception is caught and logged. *)
Definition on_closing_save (self : VehicleControlPanel) (fs : gmap string file)
  : VehicleControlPanel * io unit :=
  let c := panel_config self in
  let c := <["vehicle_data" :=
               PDict (vehicle_data_record (vehicle_data (control_handler self)))]> c in
  let c := <["debug_mode" := PBool (debug_mode self)]> c in
  let c := <["simulation_enabled" :=
               PBool (simulation_enabled (control_handler self))]> c in
  let self := panel_set_config self c in
  let saved := save_config (config_manager self) c None fs in
  (self,
   {| value := Ok tt; disk := disk saved;
      records :=
        records saved ++
        match value saved with
        | Ok _ => [(INFO, "Configuration saved on exit.")]
        | Raise e =>
            [(ERROR, "Error saving configuration on exit: " +:+ exn_text e)]
        end |}).

(** The panel's [reset_vehicle] once the question is answered yes (line
    461): the handler is reset from the [vehicle_data] entry of the
    manager's defaults.  The outer [None]: see [setattr]. *)
Definition panel_reset_vehicle (self : VehicleControlPanel) (now : Q)
  : option (result (VehicleControlPanel * list log_record)) :=
  match Py.get (default_config (config_manager self)) "vehicle_data" (PDict ∅) with
  | PDict d =>
      match reset_vehicle (control_handler self) d now with
      | Some (h, logs) =>
          Some (Ok ({| config_manager := config_manager self;
                       own_config := own_config self;
                       control_handler := h;
                       debug_mode := debug_mode self |}, logs))
      | None => None
      end
  | _ => Some (Raise (AttributeError "items"))
  end.

(** ** main.py: what the panel draws

    A drawing function clears its canvas and creates items on it; it is
    modelled by the list of the items it creates, in order, with their
    coordinates and colours (fonts are left out). *)
Inductive canvas_item :=
| Rectangle (x1 y1 x2 y2 : Q) (fill outline : string)
| Line (x1 y1 x2 y2 : Q) (fill : string) (width : Z)
| Text (x y : Q) (text fill : string)
| Polygon (points : list Q) (fill outline : string).

Definition item_fill (it : canvas_item) : string :=
  match it with
  | Rectangle _ _ _ _ fill _ | Line _ _ _ _ fill _ | Text _ _ _ fill
  | Polygon _ fill _ => fill
  end.

Definition is_rectangle (it : canvas_item) : bool :=
  match it with Rectangle _ _ _ _ _ _ => true | _ => false end.

(** [int(x)]: towards zero. *)
Definition py_int (x : Q) : Z := if Py.lt x 0 then Qceiling x else Qfloor x.

(** [str(i)] for an integer. *)
Definition py_str (i : Z) : string := NilZero.string_of_int (Z.to_int i).

(** [range(start, stop, step)] for a positive [step]. *)
Definition py_range (start stop step : Z) : list Z :=
  map (fun k => (start + step * Z.of_nat k)%Z)
      (seq 0 (Z.to_nat ((stop - start + step - 1) / step))).

(** [draw_histogram]; [None] stands for the ZeroDivisionError of
    [value / max_val] when [max_val] is zero.  The conditional expression
    of line 233 nests to the right. *)
Definition draw_histogram (value max_val : Q) : option (list canvas_item) :=
  if Py.eq max_val 0 then None
  else
    let fill_level := py_int ((value / max_val) * 8) in
    Some
      (map (fun i : Z =>
              let y := 55 - inject_Z i * 7 in
              let color :=
                if Py.lt value 70 then "green"
                else if Py.lt value 90 then "orange"
                else if (i <? fill_level)%Z then "red"
                else "gray20" in
              Rectangle 5 y 25 (y + 5) color
                (if (i >=? fill_level)%Z then "gray40" else color))
           (py_range 0 8 1)).

(** [enumerate(l)]. *)
Definition enumerate {A} (l : list A) : list (nat * A) :=
  combine (seq 0 (length l)) l.

(** [draw_gear_selector]. *)
Definition draw_gear_selector (current_gear : string) : list canvas_item :=
  let gears := ["P"; "R"; "N"; "D"; "L"] in
  concat
    (map (fun ig : nat * string =>
            let i := fst ig in
            let gear := snd ig in
            let y := 15 + inject_Z (Z.of_nat i) * 10 in
            let color := if String.eqb gear current_gear then "green" else "white" in
            Text 25 y gear color ::
            (if String.eqb gear current_gear
             then [Rectangle 40 (y - 4) 48 (y + 4) "green" "green"]
             else []))
         (enumerate gears)).

(** Lines 283-289 of [draw_steering_indicator]: the scale and its ticks. *)
Definition draw_steering_scale : list canvas_item :=
  Line 50 10 250 10 "white" 2 ::
  concat
    (map (fun i : Z =>
            let x := 150 + inject_Z i * (100 / 780) in
            if Py.le 50 x && Py.le x 250 then
              [Line x 5 x 15 "white" 1; Text x 18 (py_str i) "white"]
            else [])
         (py_range (-780) 781 260)).

(** [draw_steering_indicator]. *)
Definition draw_steering_indicator (angle : Q) : list canvas_item :=
  let angle := Py.max (-780) (Py.min 780 angle) in
  let current_pos := 150 + angle * (100 / 780) in
  draw_steering_scale ++
  (if Py.le 50 current_pos && Py.le current_pos 250 then
     [Polygon [current_pos - 4; 2; current_pos + 4; 2; current_pos; 10]
        "cyan" "cyan"]
   else []).

(** * Properties *)

(** ** Comparisons, [min], [max] and [round] *)

Lemma lt_true a b : Py.lt a b = true <-> a < b.
Proof.
  unfold Py.lt. destruct (Qcompare_spec a b) as [H|H|H]; split; intros; try easy; lra.
Qed.

Lemma lt_false a b : Py.lt a b = false <-> b <= a.
Proof.
  unfold Py.lt. destruct (Qcompare_spec a b) as [H|H|H]; split; intros; try easy; lra.
Qed.

Lemma le_true a b : Py.le a b = true <-> a <= b.
Proof.
  unfold Py.le. destruct (Qcompare_spec a b) as [H|H|H]; split; intros; try easy; lra.
Qed.

Lemma eq_true a b : Py.eq a b = true <-> a == b.
Proof.
  unfold Py.eq. destruct (Qcompare_spec a b) as [H|H|H]; split; intros; try easy; lra.
Qed.

Lemma min_cases a b : (b < a /\ Py.min a b = b) \/ (a <= b /\ Py.min a b = a).
Proof.
  unfold Py.min. destruct (Py.lt b a) eqn:E.
  - left. split; [now apply lt_true | reflexivity].
  - right. split; [now apply lt_false | reflexivity].
Qed.

Lemma max_cases a b : (a < b /\ Py.max a b = b) \/ (b <= a /\ Py.max a b = a).
Proof.
  unfold Py.max, Py.gt. destruct (Py.lt a b) eqn:E.
  - left. split; [now apply lt_true | reflexivity].
  - right. split; [now apply lt_false | reflexivity].
Qed.

(** The clamp of lines 83-88 lands in the interval, whatever it is given. *)
Lemma clamp_range lo hi x :
  lo <= hi -> lo <= Py.max lo (Py.min hi x) <= hi.
Proof.
  intros Hlh.
  destruct (min_cases hi x) as [[H1 ->]|[H1 ->]];
    [destruct (max_cases lo x) as [[H2 ->]|[H2 ->]]
    |destruct (max_cases lo hi) as [[H2 ->]|[H2 ->]]]; lra.
Qed.

(** It is the identity on the interval. *)
Lemma clamp_id lo hi x :
  lo <= x <= hi -> Py.max lo (Py.min hi x) == x.
Proof.
  intros [Hl Hh].
  destruct (min_cases hi x) as [[H1 ->]|[H1 ->]];
    [destruct (max_cases lo x) as [[H2 ->]|[H2 ->]]
    |destruct (max_cases lo hi) as [[H2 ->]|[H2 ->]]]; lra.
Qed.

Lemma round_half_even_cases x :
  let f := Qfloor x in
  (Py.round_half_even x = f /\ x - inject_Z f <= 1 # 2) \/
  (Py.round_half_even x = (f + 1)%Z /\ 1 # 2 <= x - inject_Z f).
Proof.
  intros f. unfold Py.round_half_even. fold f.
  destruct (Qcompare_spec (x - inject_Z f) (1 # 2)) as [H|H|H].
  - destruct (Z.even f); [left | right]; split; trivial; lra.
  - left. split; trivial. lra.
  - right. split; trivial. lra.
Qed.

#[local] Instance round_half_even_comp : Proper (Qeq ==> eq) Py.round_half_even.
Proof.
  intros x y E. unfold Py.round_half_even.
  rewrite (Qfloor_comp _ _ E).
  assert (E' : x - inject_Z (Qfloor y) == y - inject_Z (Qfloor y))
    by (rewrite E; reflexivity).
  rewrite (Qcompare_comp _ _ E' _ _ (Qeq_refl (1 # 2))). reflexivity.
Qed.

Lemma round_half_even_Z z : Py.round_half_even (inject_Z z) = z.
Proof.
  unfold Py.round_half_even. rewrite Qfloor_Z.
  destruct (Qcompare_spec (inject_Z z - inject_Z z) (1 # 2)) as [H|H|H];
    trivial; exfalso; lra.
Qed.

Lemma floor_bounds x : inject_Z (Qfloor x) <= x < inject_Z (Qfloor x) + 1.
Proof.
  split; [apply Qfloor_le |].
  pose proof (Qlt_floor x) as H. rewrite inject_Z_plus in H. exact H.
Qed.

Lemma round_half_even_mono x y :
  x <= y -> (Py.round_half_even x <= Py.round_half_even y)%Z.
Proof.
  intros Hxy.
  pose proof (Qfloor_resp_le _ _ Hxy) as Hf.
  pose proof (floor_bounds x) as Bx. pose proof (floor_bounds y) as By.
  destruct (Z.eq_dec (Qfloor x) (Qfloor y)) as [E|NE].
  - unfold Py.round_half_even. rewrite E in *.
    destruct (Qcompare_spec (x - inject_Z (Qfloor y)) (1 # 2)) as [H|H|H];
      destruct (Qcompare_spec (y - inject_Z (Qfloor y)) (1 # 2)) as [H'|H'|H'];
      try destruct (Z.even (Qfloor y)); try lia; exfalso; lra.
  - assert (Hlt : (Qfloor x + 1 <= Qfloor y)%Z) by lia.
    destruct (round_half_even_cases x) as [[-> _]|[-> _]];
      destruct (round_half_even_cases y) as [[-> _]|[-> _]]; lia.
Qed.

Lemma round_half_even_ge z x :
  inject_Z z <= x -> (z <= Py.round_half_even x)%Z.
Proof.
  intros H. rewrite <- (round_half_even_Z z). now apply round_half_even_mono.
Qed.

Lemma round_half_even_le z x :
  x <= inject_Z z -> (Py.round_half_even x <= z)%Z.
Proof.
  intros H. rewrite <- (round_half_even_Z z). now apply round_half_even_mono.
Qed.

Lemma pow10_pos n : 0 < Py.pow10 n.
Proof.
  unfold Py.pow10. change 0 with (inject_Z 0). rewrite <- Zlt_Qlt.
  apply Z.pow_pos_nonneg; lia.
Qed.

#[local] Instance round_comp : Proper (Qeq ==> eq ==> Qeq) Py.round.
Proof.
  intros x y E n ? <-. unfold Py.round. now rewrite E.
Qed.

Lemma round_mono x y n : x <= y -> Py.round x n <= Py.round y n.
Proof.
  intros H. pose proof (pow10_pos n) as Hp. unfold Py.round.
  apply Qmult_le_compat_r.
  - rewrite <- Zle_Qle. apply round_half_even_mono.
    apply Qmult_le_compat_r; lra.
  - apply Qlt_le_weak, Qinv_lt_0_compat, Hp.
Qed.

(** A value with at most [n] decimals is left as it is. *)
Lemma round_grid z n : Py.round (inject_Z z / Py.pow10 n) n == inject_Z z / Py.pow10 n.
Proof.
  pose proof (pow10_pos n) as Hp. unfold Py.round.
  assert (E : inject_Z z / Py.pow10 n * Py.pow10 n == inject_Z z)
    by (field; lra).
  now rewrite E, round_half_even_Z.
Qed.

Lemma round_idem x n : Py.round (Py.round x n) n == Py.round x n.
Proof. unfold Py.round at 2 3. apply round_grid. Qed.

Lemma round_ge_int z x n : inject_Z z <= x -> inject_Z z <= Py.round x n.
Proof.
  intros H. pose proof (pow10_pos n) as Hp.
  assert (E : inject_Z z == inject_Z (z * 10 ^ Z.of_nat n) / Py.pow10 n).
  { unfold Py.pow10 in *. rewrite inject_Z_mult. field. lra. }
  rewrite E at 1. rewrite <- round_grid. apply round_mono. rewrite <- E. exact H.
Qed.

Lemma round_le_int z x n : x <= inject_Z z -> Py.round x n <= inject_Z z.
Proof.
  intros H. pose proof (pow10_pos n) as Hp.
  assert (E : inject_Z z == inject_Z (z * 10 ^ Z.of_nat n) / Py.pow10 n).
  { unfold Py.pow10 in *. rewrite inject_Z_mult. field. lra. }
  rewrite E at 1. rewrite <- round_grid. apply round_mono. rewrite <- E. exact H.
Qed.

(** ** The final clamp *)

Lemma validate_within vd : validate vd = true <-> within_limits vd.
Proof.
  unfold validate, within_limits.
  rewrite !andb_true_iff, !le_true. tauto.
Qed.

Lemma clamp_limits_within vd : within_limits (clamp_limits vd).
Proof.
  unfold within_limits, clamp_limits; cbn.
  repeat split; apply clamp_range; lra.
Qed.

Lemma active_guard self :
  negb (simulation_enabled self) || negb (is_running self) || is_paused self
  = negb (active self).
Proof.
  unfold active.
  destruct (simulation_enabled self), (is_running self), (is_paused self);
    reflexivity.
Qed.

(** Every call of an active stepper that returns leaves the six fields in
    range, whatever they held before. *)
Lemma simulate_returned_within self now u :
  active self = true ->
  raised (simulate_vehicle_data self now u) = None ->
  within_limits (vehicle_data (after (simulate_vehicle_data self now u))).
Proof.
  intros Hact. unfold simulate_vehicle_data.
  rewrite active_guard, Hact. cbn [negb].
  cbn [vehicle_data with_last_update_time].
  destruct (vehicle_started (vehicle_data self)).
  - destruct (started_body _ _ _) as [[e|] vd']; cbn; [discriminate |].
    intros _. apply clamp_limits_within.
  - cbn. intros _. apply clamp_limits_within.
Qed.

(** C1: the clamp invariant "for every pre-step state" of an active
    stepper.  The code is evaluated at a state built by the constructor
    from a stored record with [vehicle_started] and [maneuver_active] set
    and [accel_value] 150: the step raises AttributeError on the
    undeclared [maneuver_name] before it reaches the clamp, and
    [accel_value] is still 150 afterwards. *)
Theorem C1_step_raises_before_clamp :
  exists self,
    handler_flags_loaded = Some self /\
    active self = true /\
    let r := simulate_vehicle_data self 1 (fun _ => 0) in
    raised r = Some (AttributeError "maneuver_name") /\
    accel_value (vehicle_data (after r)) = 150 /\
    Py.le (accel_value (vehicle_data (after r))) 100 = false /\
    validate (vehicle_data (after r)) = false.
Proof.
  eexists. split; [vm_compute; reflexivity |].
  vm_compute. repeat split; reflexivity.
Qed.

(** ** The inactive stepper *)

(** C7: when the simulation is disabled, or the handler is not running,
    or it is paused, [simulate_vehicle_data] returns the handler it was
    given: every VehicleData field and the last-update timestamp are
    unchanged (no clamp is applied), nothing is raised and nothing is
    logged. *)
Theorem C7_inactive_step_is_noop (self : ControlHandler) (now : Q) (u : nat -> Q) :
  simulation_enabled self = false \/ is_running self = false
    \/ is_paused self = true ->
  after (simulate_vehicle_data self now u) = self /\
  vehicle_data (after (simulate_vehicle_data self now u)) = vehicle_data self /\
  _last_update_time (after (simulate_vehicle_data self now u))
    = _last_update_time self /\
  raised (simulate_vehicle_data self now u) = None /\
  logged (simulate_vehicle_data self now u) = [].
Proof.
  intros H. unfold simulate_vehicle_data.
  assert (G : negb (simulation_enabled self) || negb (is_running self)
              || is_paused self = true).
  { destruct H as [H | [H | H]]; rewrite H;
      destruct (simulation_enabled self), (is_running self), (is_paused self);
      reflexivity. }
  rewrite G. cbn. auto.
Qed.

(** A paused handler holding out-of-range values keeps them. *)
Lemma C7_inactive_step_is_noop_witness :
  let self :=
    {| vehicle_data := with_accel_value VehicleData_default 150;
       simulation_enabled := true; is_running := true; is_paused := true;
       _last_update_time := 0 |} in
  after (simulate_vehicle_data self 5 (fun _ => 0)) = self /\
  accel_value (vehicle_data (after (simulate_vehicle_data self 5 (fun _ => 0))))
    = 150.
Proof.
  intros self.
  destruct (C7_inactive_step_is_noop self 5 (fun _ => 0)) as (H1 & H2 & _).
  - right; right; reflexivity.
  - split; [exact H1 | rewrite H2; reflexivity].
Defined.

(** ** Unfolding one step *)

Lemma simulate_active self now u :
  active self = true ->
  simulate_vehicle_data self now u =
  let delta_time := now - _last_update_time self in
  let self' := with_last_update_time self now in
  if vehicle_started (vehicle_data self) then
    match started_body (vehicle_data self) delta_time u with
    | (Some e, vd) =>
        {| raised := Some e; after := with_vehicle_data self' vd; logged := [] |}
    | (None, vd) =>
        {| raised := None; after := with_vehicle_data self' (clamp_limits vd);
           logged := [(DEBUG, "Vehicle data simulated.")] |}
    end
  else
    {| raised := None;
       after := with_vehicle_data self' (clamp_limits (vehicle_data self));
       logged := [(DEBUG, "Vehicle data simulated.")] |}.
Proof.
  intros Hact. unfold simulate_vehicle_data.
  rewrite active_guard, Hact. reflexivity.
Qed.

Lemma rpm_simulation_frame vd dt :
  rpm_simulation vd dt = with_rpm vd (rpm (rpm_simulation vd dt)).
Proof.
  unfold rpm_simulation.
  destruct (Py.gt (accel_value vd) 0); [| destruct (Py.gt (break_value vd) 0)];
    reflexivity.
Qed.

Lemma odometer_update_frame vd dt :
  odometer_update vd dt = with_odometer_km vd (odometer_km (odometer_update vd dt)).
Proof.
  unfold odometer_update. destruct (Py.gt (speed_kmh vd) 0); [reflexivity |].
  destruct vd; reflexivity.
Qed.

Lemma getattr_maneuver_name vd :
  getattr vd "maneuver_name" =
  match dyn_attrs vd !! "maneuver_name" with
  | Some v => Ok v
  | None => Raise (AttributeError "maneuver_name")
  end.
Proof. reflexivity. Qed.

Lemma str_in_PN g : Py.str_in g ["P"; "N"] = true <-> g = "P" \/ g = "N".
Proof.
  unfold Py.str_in. cbn [existsb].
  rewrite !orb_true_iff, !String.eqb_eq. intuition discriminate.
Qed.

(** ** Gear changes *)

(** C5: for every string [g] and every state, [set_gear g] assigns [g]
    to the gear field exactly when the vehicle is started or [g] is "P"
    or "N" (every other field is kept and an INFO record is written);
    otherwise the handler, and so every VehicleData field including the
    gear, is unchanged and the only effect is one WARNING record.  The
    call cannot raise: it is a total function returning the handler. *)
Theorem C5_set_gear_guard (self : ControlHandler) (g : string) :
  let accepted :=
    vehicle_started (vehicle_data self) = true \/ g = "P" \/ g = "N" in
  let r := set_gear self g in
  (accepted ->
     fst r = with_vehicle_data self (with_gear (vehicle_data self) g) /\
     gear (vehicle_data (fst r)) = g /\
     snd r = [(INFO, "Gear set to: " +:+ g +:+ ".")]) /\
  (~ accepted ->
     fst r = self /\
     vehicle_data (fst r) = vehicle_data self /\
     snd r = [(WARNING, "Cannot set gear " +:+ g +:+ ": Vehicle is off.")]).
Proof.
  intros accepted r. subst accepted r. unfold set_gear.
  destruct (vehicle_started (vehicle_data self)) eqn:Hs; cbn [orb].
  - split; [intros _; auto | intros H; exfalso; apply H; auto].
  - destruct (Py.str_in g ["P"; "N"]) eqn:Hg.
    + split; [intros _; auto | intros H; exfalso; apply H; right].
      now apply str_in_PN.
    + split; [| intros _; auto].
      intros [H | H]; [discriminate |].
      apply str_in_PN in H. congruence.
Qed.

(** The scenario of the specification: "D" requested while the vehicle
    is off. *)
Lemma C5_set_gear_guard_witness :
  let self := fst (ControlHandler_init VehicleData_default true 0) in
  fst (set_gear self "D") = self /\
  gear (vehicle_data (fst (set_gear self "D"))) = "N" /\
  snd (set_gear self "D") = [(WARNING, "Cannot set gear D: Vehicle is off.")].
Proof.
  intros self.
  destruct (C5_set_gear_guard self "D") as [_ H].
  destruct H as (H1 & H2 & H3).
  - intros [H | [H | H]]; discriminate H.
  - split; [exact H1 |]. split; [rewrite H2; reflexivity | exact H3].
Defined.

(** ** Maneuvers *)

Lemma catalogue_cases n p :
  all_maneuver_presets !! n = Some p ->
  (n = "Standard Cruise" /\ p = standard_cruise) \/
  (n = "Sharp Turn" /\ p = sharp_turn) \/
  (n = "Emergency Stop" /\ p = emergency_stop).
Proof.
  unfold all_maneuver_presets. intros H.
  apply lookup_insert_Some in H as [[<- <-] | [_ H]]; [tauto |].
  apply lookup_insert_Some in H as [[<- <-] | [_ H]]; [tauto |].
  apply lookup_insert_Some in H as [[<- <-] | [_ H]]; [tauto |].
  rewrite lookup_empty in H. discriminate.
Qed.

Lemma catalogue_truthy n p :
  all_maneuver_presets !! n = Some p -> Py.truthy p = true.
Proof.
  intros H. destruct (catalogue_cases n p H) as [[_ ->] | [[_ ->] | [_ ->]]];
    vm_compute; reflexivity.
Qed.

(** The three fields after [apply_preset]: the preset's value when it
    names the field, the current value otherwise. *)
Lemma apply_preset_fields vd p :
  Py.truthy p = true ->
  speed_kmh (apply_preset vd p) = Py.get p "speed_kmh" (speed_kmh vd) /\
  steering_wheel_angle (apply_preset vd p)
    = Py.get p "steering_wheel_angle" (steering_wheel_angle vd) /\
  break_value (apply_preset vd p) = Py.get p "break_value" (break_value vd).
Proof. intros H. unfold apply_preset. rewrite H. cbn. auto. Qed.

Lemma apply_preset_empty vd : apply_preset vd ∅ = vd.
Proof. reflexivity. Qed.

Lemma apply_preset_with_rpm vd r p :
  apply_preset (with_rpm vd r) p = with_rpm (apply_preset vd p) r.
Proof. unfold apply_preset. destruct (Py.truthy p); reflexivity. Qed.

Lemma get_Some {A} (d : gmap string A) k v x : d !! k = Some v -> Py.get d k x = v.
Proof. unfold Py.get. now intros ->. Qed.

Lemma get_None {A} (d : gmap string A) k x : d !! k = None -> Py.get d k x = x.
Proof. unfold Py.get. now intros ->. Qed.

(** One step of an active, started handler in a maneuver whose name is
    assigned and resolves to [p]: the step returns, and the three fields
    are those of [apply_preset], the speed rounded to one decimal, all
    three clamped. *)
Lemma simulate_in_maneuver self now u name p :
  active self = true ->
  vehicle_started (vehicle_data self) = true ->
  maneuver_active (vehicle_data self) = true ->
  dyn_attrs (vehicle_data self) !! "maneuver_name" = Some name ->
  presets_get name = Ok p ->
  let r := simulate_vehicle_data self now u in
  let vd := vehicle_data self in
  let vd' := vehicle_data (after r) in
  raised r = None /\
  speed_branch vd (now - _last_update_time self) = Ok (apply_preset vd p) /\
  speed_kmh vd' = clamp 0 300 (Py.round (speed_kmh (apply_preset vd p)) 1) /\
  steering_wheel_angle vd'
    = clamp (-780) 780 (steering_wheel_angle (apply_preset vd p)) /\
  break_value vd' = clamp 0 100 (break_value (apply_preset vd p)).
Proof.
  intros Hact Hst Hman Hname Hp r vd vd'. subst r vd vd'.
  assert (Hb : forall w, maneuver_active w = true ->
             dyn_attrs w !! "maneuver_name" = Some name ->
             forall dt, speed_branch w dt = Ok (apply_preset w p)).
  { intros w Hw Hn dt. unfold speed_branch.
    now rewrite Hw, getattr_maneuver_name, Hn, Hp. }
  rewrite (simulate_active _ _ _ Hact), Hst. cbn zeta.
  unfold started_body, speed_simulation.
  set (dt := now - _last_update_time self).
  rewrite (rpm_simulation_frame (vehicle_data self) dt).
  set (r := rpm (rpm_simulation (vehicle_data self) dt)).
  rewrite (Hb (with_rpm (vehicle_data self) r) Hman Hname dt).
  rewrite apply_preset_with_rpm, odometer_update_frame. cbn.
  rewrite (Hb _ Hman Hname). auto.
Qed.

(** C3: for every state with the vehicle started and every accelerator
    value, [start_maneuver "Emergency Stop"] followed by one step of the
    active stepper returns with [speed_kmh == 0] and [break_value == 100]
    (the steering angle, which the preset does not name, keeps its value up
    to the final clamp).  More generally, in a state whose active maneuver
    is a catalogue entry the speed branch is [apply_preset] and nothing
    else, each of the three fields the preset names takes the preset's
    value, and each field it does not name keeps its current value. *)
Theorem C3_emergency_stop_overrides (self : ControlHandler) (now : Q)
    (u : nat -> Q) :
  vehicle_started (vehicle_data self) = true ->
  let self1 := fst (start_maneuver self (Some "Emergency Stop")) in
  active self1 = true ->
  let r := simulate_vehicle_data self1 now u in
  (raised r = None /\
   speed_kmh (vehicle_data (after r)) == 0 /\
   break_value (vehicle_data (after r)) == 100 /\
   steering_wheel_angle (vehicle_data (after r))
     = clamp (-780) 780 (steering_wheel_angle (vehicle_data self))) /\
  (forall vd n p dt,
     all_maneuver_presets !! n = Some p ->
     maneuver_active vd = true ->
     dyn_attrs vd !! "maneuver_name" = Some (PStr n) ->
     speed_branch vd dt = Ok (apply_preset vd p) /\
     (forall v, p !! "speed_kmh" = Some v -> speed_kmh (apply_preset vd p) = v) /\
     (p !! "speed_kmh" = None -> speed_kmh (apply_preset vd p) = speed_kmh vd) /\
     (forall v, p !! "steering_wheel_angle" = Some v ->
        steering_wheel_angle (apply_preset vd p) = v) /\
     (p !! "steering_wheel_angle" = None ->
        steering_wheel_angle (apply_preset vd p) = steering_wheel_angle vd) /\
     (forall v, p !! "break_value" = Some v -> break_value (apply_preset vd p) = v) /\
     (p !! "break_value" = None -> break_value (apply_preset vd p) = break_value vd)).
Proof.
  intros Hst self1 Hact r. split.
  - subst r self1. unfold start_maneuver in *. rewrite Hst in *.
    cbn [fst] in *.
    match goal with |- context [simulate_vehicle_data ?h _ _] => set (h1 := h) in * end.
    destruct (simulate_in_maneuver h1 now u (PStr "Emergency Stop") emergency_stop)
      as (H0 & _ & H1 & H2 & H3); trivial.
    { cbn. apply lookup_insert_eq. }
    split; [exact H0 |]. rewrite H1, H2, H3.
    destruct (apply_preset_fields (vehicle_data h1) emergency_stop eq_refl)
      as (-> & -> & ->).
    split; [vm_compute; reflexivity |]. split; [vm_compute; reflexivity |].
    reflexivity.
  - intros vd n p dt Hn Hman Hname.
    pose proof (catalogue_truthy n p Hn) as Ht.
    destruct (apply_preset_fields vd p Ht) as (-> & -> & ->).
    split.
    { unfold speed_branch. rewrite Hman, getattr_maneuver_name, Hname. cbn.
      unfold Py.get at 1. now rewrite Hn. }
    repeat split; intros; solve [now apply get_Some | now apply get_None].
Qed.

(** From 80 km/h in gear D with the accelerator at 50. *)
Lemma C3_emergency_stop_overrides_witness :
  let r := simulate_vehicle_data
             (fst (start_maneuver handler_driving (Some "Emergency Stop")))
             1 (fun _ => 0) in
  speed_kmh (vehicle_data (after r)) == 0 /\
  break_value (vehicle_data (after r)) == 100.
Proof.
  intros r.
  destruct (C3_emergency_stop_overrides handler_driving 1 (fun _ => 0))
    as [(_ & H1 & H2 & _) _].
  - reflexivity.
  - reflexivity.
  - split; [exact H1 | exact H2].
Defined.

Lemma presets_get_unknown name :
  not_in_catalogue name -> presets_get (opt_str_val name) = Ok ∅.
Proof.
  destruct name as [s|]; cbn; [| reflexivity].
  intros H. unfold Py.get. now rewrite H.
Qed.

(** C10, as stated, at a speed with two decimals: in a maneuver the
    catalogue does not know the step returns, but the speed it leaves is
    45.7, not the clamp of 45.67. *)
Lemma C10_speed_is_rounded_too :
  let self := handler_unknown_maneuver in
  let r := simulate_vehicle_data self 1 (fun _ => 0) in
  active self = true /\
  vehicle_started (vehicle_data self) = true /\
  maneuver_active (vehicle_data self) = true /\
  dyn_attrs (vehicle_data self) !! "maneuver_name" = Some (PStr "Barrel Roll") /\
  all_maneuver_presets !! "Barrel Roll" = None /\
  raised r = None /\
  speed_kmh (vehicle_data (after r)) == 45.7 /\
  ~ speed_kmh (vehicle_data (after r))
    == clamp 0 300 (speed_kmh (vehicle_data self)).
Proof.
  repeat split; try (vm_compute; reflexivity).
  intros H. vm_compute in H. discriminate H.
Qed.

(** C10, amended: [start_maneuver] accepts any name, [None] included,
    whenever the vehicle is started (it sets [maneuver_active] and stores
    the name).  For every active, started state in which
    [maneuver_active] is set and [maneuver_name] holds a string that is
    not a catalogue key, or [None], the step returns, its maneuver branch
    leaves the record as it is, and afterwards [steering_wheel_angle] and
    [break_value] are their previous values clamped, while [speed_kmh] is
    its previous value rounded to one decimal and then clamped. *)
Theorem C10_unknown_maneuver_is_silent (self : ControlHandler)
    (name : option string) (now : Q) (u : nat -> Q) :
  not_in_catalogue name ->
  active self = true ->
  vehicle_started (vehicle_data self) = true ->
  maneuver_active (vehicle_data self) = true ->
  dyn_attrs (vehicle_data self) !! "maneuver_name" = Some (opt_str_val name) ->
  let r := simulate_vehicle_data self now u in
  let vd := vehicle_data self in
  let vd' := vehicle_data (after r) in
  (raised r = None /\
   speed_branch vd (now - _last_update_time self) = Ok vd /\
   speed_kmh vd' = clamp 0 300 (Py.round (speed_kmh vd) 1) /\
   steering_wheel_angle vd' = clamp (-780) 780 (steering_wheel_angle vd) /\
   break_value vd' = clamp 0 100 (break_value vd)) /\
  (forall (self0 : ControlHandler) (name0 : option string),
     vehicle_started (vehicle_data self0) = true ->
     let vd1 := vehicle_data (fst (start_maneuver self0 name0)) in
     maneuver_active vd1 = true /\
     dyn_attrs vd1 !! "maneuver_name" = Some (opt_str_val name0) /\
     vehicle_started vd1 = true /\
     snd (start_maneuver self0 name0)
       = [(INFO, "Maneuver started: " +:+ opt_str_text name0)]).
Proof.
  intros Hname Hact Hst Hman Hattr r vd vd'. split.
  - subst r vd vd'.
    destruct (simulate_in_maneuver self now u (opt_str_val name) ∅)
      as (H0 & Hb & H1 & H2 & H3); trivial.
    { now apply presets_get_unknown. }
    rewrite apply_preset_empty in *. auto.
  - intros self0 name0 Hst0 vd1. subst vd1. unfold start_maneuver.
    rewrite Hst0. cbn. repeat split; trivial. apply lookup_insert_eq.
Qed.

Lemma C10_unknown_maneuver_is_silent_witness :
  let r := simulate_vehicle_data handler_unknown_maneuver 1 (fun _ => 0) in
  raised r = None /\
  speed_kmh (vehicle_data (after r)) = clamp 0 300 (Py.round 45.67 1) /\
  steering_wheel_angle (vehicle_data (after r)) = clamp (-780) 780 0.0 /\
  break_value (vehicle_data (after r)) = clamp 0 100 0.0.
Proof.
  intros r.
  destruct (C10_unknown_maneuver_is_silent handler_unknown_maneuver
              (Some "Barrel Roll") 1 (fun _ => 0))
    as [(H0 & _ & H1 & H2 & H3) _]; try reflexivity.
  repeat split; assumption.
Defined.

(** ** The drivetrain update law *)

Lemma gt0_is_pos x : Py.gt x 0 = is_pos x.
Proof.
  unfold is_pos. destruct (Qlt_le_dec 0 x) as [H|H].
  - now apply lt_true.
  - now apply lt_false.
Qed.

Lemma eq0_is_zero x : Py.eq x 0 = is_zero x.
Proof.
  unfold is_zero. destruct (Qeq_dec x 0) as [H|H].
  - now apply eq_true.
  - destruct (Py.eq x 0) eqn:E; [| reflexivity].
    apply eq_true in E. contradiction.
Qed.

Lemma str_in_decide g l : Py.str_in g l = bool_decide (g ∈ l).
Proof.
  unfold Py.str_in. induction l as [|a l IH]; cbn.
  - symmetry. apply bool_decide_eq_false. apply not_elem_of_nil.
  - rewrite IH. destruct (String.eqb_spec g a) as [->|Hne]; cbn.
    + symmetry. apply bool_decide_eq_true. apply elem_of_cons. now left.
    + apply bool_decide_ext. rewrite elem_of_cons. tauto.
Qed.

Lemma min_Qmin a b : Py.min a b == Qmin b a.
Proof.
  destruct (min_cases a b) as [[H ->]|[H ->]].
  - symmetry. apply Q.min_l. lra.
  - symmetry. apply Q.min_r. exact H.
Qed.

Lemma max_Qmax a b : Py.max a b == Qmax b a.
Proof.
  destruct (max_cases a b) as [[H ->]|[H ->]].
  - symmetry. apply Q.max_l. lra.
  - symmetry. apply Q.max_r. exact H.
Qed.

#[local] Instance clamp_comp lo hi : Proper (Qeq ==> Qeq) (clamp lo hi).
Proof.
  intros x y E. unfold clamp. rewrite !max_Qmax, !min_Qmin. now rewrite E.
Qed.

(** The RPM the code assigns is the RPM of the law. *)
Lemma rpm_simulation_law vd dt :
  rpm (rpm_simulation vd dt)
  == spec_rpm (rpm vd) (accel_value vd) (break_value vd) dt.
Proof.
  unfold rpm_simulation, spec_rpm. rewrite !gt0_is_pos.
  destruct (is_pos (accel_value vd)); [| destruct (is_pos (break_value vd))];
    cbn; apply round_comp; trivial.
  - apply min_Qmin.
  - apply max_Qmax.
  - apply max_Qmax.
Qed.

(** With no maneuver active the speed simulation returns, changes the
    speed only, and the speed is the speed of the law. *)
Lemma speed_simulation_law vd dt :
  maneuver_active vd = false ->
  exists s,
    speed_simulation vd dt = Ok (with_speed_kmh vd s) /\
    s == spec_speed (speed_kmh vd) (accel_value vd) (break_value vd) (gear vd) dt.
Proof.
  intros Hman. unfold speed_simulation, speed_branch, spec_speed.
  rewrite Hman, !gt0_is_pos, eq0_is_zero, !str_in_decide.
  change (bool_decide (gear vd ∈ driving_gears))
    with (spec_driving_gear (gear vd)).
  destruct (is_pos (accel_value vd) && is_zero (break_value vd)
            && spec_driving_gear (gear vd)).
  { eexists. split; [reflexivity |]. cbn. apply round_comp; trivial.
    apply min_Qmin. }
  destruct (is_pos (break_value vd)).
  { eexists. split; [reflexivity |]. cbn. apply round_comp; trivial.
    apply max_Qmax. }
  destruct (spec_driving_gear (gear vd) && is_pos (speed_kmh vd)).
  { eexists. split; [reflexivity |]. cbn. apply round_comp; trivial.
    apply max_Qmax. }
  destruct (bool_decide (gear vd ∈ ["N"; "P"])).
  { eexists. split; [reflexivity |]. cbn. apply round_comp; reflexivity. }
  exists (Py.round (speed_kmh vd) 1). split; [| reflexivity].
  destruct vd; reflexivity.
Qed.

Lemma is_pos_true x : is_pos x = true -> 0 < x.
Proof. unfold is_pos. now destruct (Qlt_le_dec 0 x). Qed.

Lemma is_pos_false x : is_pos x = false -> x <= 0.
Proof. unfold is_pos. now destruct (Qlt_le_dec 0 x). Qed.

(** On a state within the limits, with [dt >= 0], the law stays within
    the limits. *)
Lemma spec_rpm_range r a b dt :
  0 <= r <= 8000 -> 0 <= a -> 0 <= b -> 0 <= dt ->
  0 <= spec_rpm r a b dt <= 8000.
Proof.
  intros Hr Ha Hb Hdt. unfold spec_rpm.
  split; [apply (round_ge_int 0) | apply (round_le_int 8000)];
    change (inject_Z 0) with 0; change (inject_Z 8000) with 8000;
    (destruct (is_pos a) eqn:Ea; [| destruct (is_pos b) eqn:Eb]);
    try (apply Q.min_glb); try (apply Q.le_max_r); try (apply Q.le_min_r);
    try (apply Q.max_lub); try nra.
Qed.

Lemma spec_speed_range s a b g dt :
  0 <= s <= 300 -> 0 <= a -> 0 <= b -> 0 <= dt ->
  0 <= spec_speed s a b g dt <= 300.
Proof.
  intros Hs Ha Hb Hdt. unfold spec_speed.
  assert (Ha' : 0 <= a / 10) by (apply Qle_shift_div_l; lra).
  assert (Hb' : 0 <= b / 5) by (apply Qle_shift_div_l; lra).
  split; [apply (round_ge_int 0) | apply (round_le_int 300)];
    change (inject_Z 0) with 0; change (inject_Z 300) with 300;
    (destruct (is_pos a && is_zero b && spec_driving_gear g);
     [| destruct (is_pos b);
        [| destruct (spec_driving_gear g && is_pos s);
           [| destruct (bool_decide (g ∈ ["N"; "P"]))]]]);
    try (apply Q.min_glb); try (apply Q.le_max_r); try (apply Q.le_min_r);
    try (apply Q.max_lub); try nra.
Qed.

Lemma simulate_no_maneuver self now u :
  active self = true ->
  vehicle_started (vehicle_data self) = true ->
  maneuver_active (vehicle_data self) = false ->
  let dt := now - _last_update_time self in
  let r := simulate_vehicle_data self now u in
  let vd := vehicle_data self in
  exists s,
    s == spec_speed (speed_kmh vd) (accel_value vd) (break_value vd) (gear vd) dt /\
    raised r = None /\
    rpm (vehicle_data (after r)) = clamp 0 8000 (rpm (rpm_simulation vd dt)) /\
    speed_kmh (vehicle_data (after r)) = clamp 0 300 s.
Proof.
  intros Hact Hst Hman dt r vd. subst r.
  rewrite (simulate_active _ _ _ Hact), Hst. cbn zeta. fold dt vd.
  unfold started_body.
  destruct (speed_simulation_law (rpm_simulation vd dt) dt) as (s & Hs & Es).
  { rewrite rpm_simulation_frame. exact Hman. }
  rewrite rpm_simulation_frame in Es. cbn in Es.
  exists s. split; [exact Es |].
  rewrite Hs, odometer_update_frame. cbn. auto.
Qed.

#[local] Instance is_pos_comp : Proper (Qeq ==> eq) is_pos.
Proof. intros x y E. rewrite <- !gt0_is_pos. unfold Py.gt, Py.lt. now rewrite E. Qed.

#[local] Instance is_zero_comp : Proper (Qeq ==> eq) is_zero.
Proof. intros x y E. rewrite <- !eq0_is_zero. unfold Py.eq. now rewrite E. Qed.

#[local] Instance spec_rpm_comp :
  Proper (Qeq ==> Qeq ==> Qeq ==> Qeq ==> Qeq) spec_rpm.
Proof.
  intros r r' Er a a' Ea b b' Eb dt dt' Edt. unfold spec_rpm.
  rewrite <- (is_pos_comp _ _ Ea), <- (is_pos_comp _ _ Eb).
  destruct (is_pos a); [| destruct (is_pos b)];
    apply round_comp; trivial; now rewrite Er, ?Ea, ?Eb, Edt.
Qed.

#[local] Instance spec_speed_comp :
  Proper (Qeq ==> Qeq ==> Qeq ==> eq ==> Qeq ==> Qeq) spec_speed.
Proof.
  intros s s' Es a a' Ea b b' Eb g ? <- dt dt' Edt. unfold spec_speed.
  rewrite <- (is_pos_comp _ _ Ea), <- (is_pos_comp _ _ Eb),
    <- (is_pos_comp _ _ Es), <- (is_zero_comp _ _ Eb).
  destruct (is_pos a && is_zero b && spec_driving_gear g);
    [| destruct (is_pos b);
       [| destruct (spec_driving_gear g && is_pos s);
          [| destruct (bool_decide (g ∈ ["N"; "P"]))]]];
    apply round_comp; trivial; try reflexivity;
    now rewrite ?Es, ?Ea, ?Eb, ?Edt.
Qed.

Lemma spec_rpm_scenario : spec_rpm 0 50 0 1 == 250.
Proof.
  unfold spec_rpm. rewrite <- !gt0_is_pos.
  replace (Py.gt 50 0) with true by reflexivity.
  vm_compute. reflexivity.
Qed.

Lemma spec_speed_scenario : spec_speed 0 50 0 "D" 1 == 25.
Proof.
  unfold spec_speed, spec_driving_gear.
  rewrite <- !gt0_is_pos, <- eq0_is_zero, <- !str_in_decide.
  replace (Py.gt 50 0) with true by reflexivity.
  replace (Py.eq 0 0) with true by reflexivity.
  replace (Py.str_in "D" ["D"; "R"; "L"; "1"; "2"; "3"; "4"; "5"; "6"])
    with true by reflexivity.
  vm_compute. reflexivity.
Qed.

(** C2: one step of an active stepper with the vehicle started and no
    maneuver active returns, and
    - the RPM it leaves is the law's RPM (the accelerator term capped at
      8000 when [accel_value > 0], else the brake term floored at 0 when
      [break_value > 0], else the idle decay floored at 0, rounded to a
      whole unit), the speed it leaves is the law's speed (acceleration
      capped at 300 in a driving gear with the brake released, else
      braking floored at 0, else decay in a driving gear with positive
      speed, else 0 in N or P, rounded to one decimal), each passed
      through the final clamp;
    - when the state before the step passes [validate] and [dt >= 0] the
      clamp changes nothing: the fields are exactly the law's values;
    - from gear "D", accelerator 50, brake 0, RPM 0 and speed 0, a step
      with [dt == 1] leaves RPM 250 and speed 25. *)
Theorem C2_drivetrain_update_law (self : ControlHandler) (now : Q)
    (u : nat -> Q) :
  active self = true ->
  vehicle_started (vehicle_data self) = true ->
  maneuver_active (vehicle_data self) = false ->
  let dt := now - _last_update_time self in
  let r := simulate_vehicle_data self now u in
  let vd := vehicle_data self in
  let vd' := vehicle_data (after r) in
  let law_rpm := spec_rpm (rpm vd) (accel_value vd) (break_value vd) dt in
  let law_speed :=
    spec_speed (speed_kmh vd) (accel_value vd) (break_value vd) (gear vd) dt in
  raised r = None /\
  rpm vd' == clamp 0 8000 law_rpm /\
  speed_kmh vd' == clamp 0 300 law_speed /\
  (validate vd = true -> 0 <= dt ->
     rpm vd' == law_rpm /\ speed_kmh vd' == law_speed) /\
  (gear vd = "D" -> accel_value vd == 50 -> break_value vd == 0 ->
   rpm vd == 0 -> speed_kmh vd == 0 -> dt == 1 ->
     rpm vd' == 250 /\ speed_kmh vd' == 25).
Proof.
  intros Hact Hst Hman dt r vd vd' law_rpm law_speed.
  destruct (simulate_no_maneuver self now u Hact Hst Hman)
    as (s & Es & H0 & Hr & Hs).
  fold dt r vd in Es, H0, Hr, Hs. fold vd' in Hr, Hs. fold law_speed in Es.
  assert (Er : rpm vd' == clamp 0 8000 law_rpm).
  { rewrite Hr. apply clamp_comp. apply rpm_simulation_law. }
  assert (Esp : speed_kmh vd' == clamp 0 300 law_speed).
  { rewrite Hs. now apply clamp_comp. }
  split; [exact H0 |]. split; [exact Er |]. split; [exact Esp |]. split.
  - intros Hval Hdt. apply validate_within in Hval.
    destruct Hval as (Hv1 & Hv2 & _ & Hv4 & Hv5 & _).
    rewrite Er, Esp. unfold clamp. split; apply clamp_id.
    + apply spec_rpm_range; tauto.
    + apply spec_speed_range; tauto.
  - intros Hg Ha Hb Hr0 Hs0 Hdt.
    rewrite Er, Esp. subst law_rpm law_speed.
    rewrite Hg, (spec_rpm_comp _ _ Hr0 _ _ Ha _ _ Hb _ _ Hdt),
      (spec_speed_comp _ _ Hs0 _ _ Ha _ _ Hb _ _ eq_refl _ _ Hdt).
    rewrite spec_rpm_scenario, spec_speed_scenario.
    split; vm_compute; reflexivity.
Qed.

(** The scenario of the specification, on a record that also passes
    [validate]. *)
Lemma C2_drivetrain_update_law_witness :
  let self :=
    {| vehicle_data :=
         with_vehicle_started
           (with_gear (with_accel_value VehicleData_default 50) "D") true;
       simulation_enabled := true; is_running := true; is_paused := false;
       _last_update_time := 10 |} in
  let r := simulate_vehicle_data self 11 (fun _ => 1 # 2) in
  raised r = None /\
  rpm (vehicle_data (after r)) == 250 /\
  speed_kmh (vehicle_data (after r)) == 25 /\
  rpm (vehicle_data (after r)) == spec_rpm 0.0 50 0.0 (11 - 10).
Proof.
  intros self r.
  destruct (C2_drivetrain_update_law self 11 (fun _ => 1 # 2))
    as (H0 & _ & _ & Hlaw & Hsc); try reflexivity.
  destruct Hsc as [H1 H2]; try reflexivity.
  destruct Hlaw as [H3 _]; [reflexivity | discriminate |].
  split; [exact H0 |]. split; [exact H1 |]. split; [exact H2 | exact H3].
Defined.

(** ** The odometer *)

Lemma apply_preset_odometer vd p :
  odometer_km (apply_preset vd p) = odometer_km vd.
Proof. unfold apply_preset. destruct (Py.truthy p); reflexivity. Qed.

Lemma speed_simulation_odometer vd dt vd' :
  speed_simulation vd dt = Ok vd' -> odometer_km vd' = odometer_km vd.
Proof.
  unfold speed_simulation, speed_branch.
  destruct (maneuver_active vd).
  - destruct (getattr vd "maneuver_name") as [name|e]; [| discriminate].
    destruct (presets_get name) as [p|e]; [| discriminate].
    intros [= <-]. cbn. apply apply_preset_odometer.
  - repeat match goal with
           | |- context [if ?c then _ else _] => destruct c
           end; intros [= <-]; reflexivity.
Qed.

Lemma odometer_update_step vd dt :
  odometer_km (odometer_update vd dt) =
  if Py.gt (speed_kmh vd) 0 then
    Py.round (odometer_km vd + (speed_kmh vd / 3600) * dt) 3
  else odometer_km vd.
Proof. unfold odometer_update. destruct (Py.gt (speed_kmh vd) 0); reflexivity. Qed.

Lemma odometer_update_mono vd dt :
  0 <= dt -> three_decimals (odometer_km vd) ->
  odometer_km vd <= odometer_km (odometer_update vd dt) /\
  three_decimals (odometer_km (odometer_update vd dt)).
Proof.
  intros Hdt Hg. rewrite odometer_update_step. unfold three_decimals in *.
  destruct (Py.gt (speed_kmh vd) 0) eqn:Hs.
  - apply lt_true in Hs. split; [| apply round_idem].
    rewrite <- Hg at 1. apply round_mono.
    assert (0 <= speed_kmh vd / 3600) by (apply Qle_shift_div_l; lra).
    nra.
  - split; [lra | exact Hg].
Qed.

Lemma simulate_odometer self now u :
  _last_update_time self <= now ->
  three_decimals (odometer_km (vehicle_data self)) ->
  let self' := after (simulate_vehicle_data self now u) in
  odometer_km (vehicle_data self) <= odometer_km (vehicle_data self') /\
  three_decimals (odometer_km (vehicle_data self')).
Proof.
  intros Hnow Hg self'. subst self'. unfold simulate_vehicle_data.
  destruct (negb (simulation_enabled self) || negb (is_running self)
            || is_paused self); [cbn; split; [lra | exact Hg] |].
  cbn zeta. cbn [vehicle_data with_last_update_time].
  destruct (vehicle_started (vehicle_data self));
    [| cbn; split; [lra | exact Hg]].
  unfold started_body.
  set (dt := now - _last_update_time self).
  destruct (speed_simulation (rpm_simulation (vehicle_data self) dt) dt)
    as [vd2|e] eqn:E.
  - apply speed_simulation_odometer in E.
    rewrite rpm_simulation_frame in E. cbn in E.
    destruct (odometer_update_mono vd2 dt) as [H1 H2].
    { subst dt. lra. }
    { now rewrite E. }
    rewrite E in H1. cbn. auto.
  - cbn [after vehicle_data with_vehicle_data].
    rewrite rpm_simulation_frame. cbn. split; [lra | exact Hg].
Qed.

Lemma run_steps_app self pre post :
  run_steps self (pre ++ post) = run_steps (run_steps self pre) post.
Proof.
  revert self. induction pre as [|[now u] pre IH]; intros self; cbn; auto.
Qed.

Lemma elapsed_nonneg_app self pre post :
  elapsed_nonneg self (pre ++ post) ->
  elapsed_nonneg self pre /\ elapsed_nonneg (run_steps self pre) post.
Proof.
  revert self. induction pre as [|[now u] pre IH]; intros self; cbn.
  - auto.
  - intros [H1 H2]. destruct (IH _ H2). auto.
Qed.

Lemma run_steps_odometer calls : forall self,
  three_decimals (odometer_km (vehicle_data self)) ->
  elapsed_nonneg self calls ->
  odometer_km (vehicle_data self)
    <= odometer_km (vehicle_data (run_steps self calls)) /\
  three_decimals (odometer_km (vehicle_data (run_steps self calls))).
Proof.
  induction calls as [|[now u] calls IH]; intros self Hg Hel; cbn in *.
  - split; [lra | exact Hg].
  - destruct Hel as [Hnow Hel].
    destruct (simulate_odometer self now u Hnow Hg) as [H1 H2].
    destruct (IH _ H2 Hel) as [H3 H4]. split; [lra | exact H4].
Qed.

(** C4, as stated, at an odometer of 0.0004 km: one call 1 ms after the
    previous one, at 45 km/h, returns and leaves the odometer at 0, below
    where it was. *)
Lemma C4_fourth_decimal_is_lost :
  let self := handler_fine_odometer in
  let r := simulate_vehicle_data self 0.001 (fun _ => 0) in
  0 <= 0.001 - _last_update_time self /\
  raised r = None /\
  odometer_km (vehicle_data (after r)) == 0 /\
  odometer_km (vehicle_data (after r)) < odometer_km (vehicle_data self).
Proof.
  repeat split; try (vm_compute; reflexivity).
  vm_compute. discriminate.
Qed.

(** C4, amended: from an odometer with at most three decimals (the
    default 0.0 and every value the stepper itself writes are such),
    across any finite sequence of calls of [simulate_vehicle_data] whose
    elapsed times are all non-negative, the odometer at any point of the
    sequence is at most the odometer at any later point, and still has at
    most three decimals.  In one call the odometer update adds
    [(speed_kmh / 3600) * dt] and rounds to three decimals when
    [speed_kmh > 0], and leaves the odometer untouched otherwise. *)
Theorem C4_odometer_never_decreases (self : ControlHandler)
    (pre post : list (Q * (nat -> Q))) :
  three_decimals (odometer_km (vehicle_data self)) ->
  elapsed_nonneg self (pre ++ post) ->
  odometer_km (vehicle_data (run_steps self pre))
    <= odometer_km (vehicle_data (run_steps self (pre ++ post))) /\
  three_decimals (odometer_km (vehicle_data (run_steps self (pre ++ post)))) /\
  (forall vd dt,
     odometer_km (odometer_update vd dt) =
     if Py.gt (speed_kmh vd) 0 then
       Py.round (odometer_km vd + (speed_kmh vd / 3600) * dt) 3
     else odometer_km vd).
Proof.
  intros Hg Hel. apply elapsed_nonneg_app in Hel as [Hpre Hpost].
  destruct (run_steps_odometer pre self Hg Hpre) as [_ Hg'].
  destruct (run_steps_odometer post _ Hg' Hpost) as [H1 H2].
  rewrite run_steps_app. repeat split; trivial.
  apply odometer_update_step.
Qed.

(** Two calls one second apart, from the default odometer, in gear D at
    80 km/h. *)
Lemma C4_odometer_never_decreases_witness :
  let calls1 := [(1, fun _ : nat => 0)] in
  let calls2 := [(2, fun _ : nat => 1 # 2)] in
  odometer_km (vehicle_data (run_steps handler_driving calls1))
    <= odometer_km (vehicle_data (run_steps handler_driving (calls1 ++ calls2))).
Proof.
  intros calls1 calls2.
  destruct (C4_odometer_never_decreases handler_driving calls1 calls2)
    as (H & _ & _).
  - vm_compute. reflexivity.
  - vm_compute. repeat split; discriminate.
  - exact H.
Defined.

(** ** Attribute access *)

Ltac key_cases k :=
  repeat match goal with
         | |- context [String.eqb k ?s] =>
             destruct (String.eqb_spec k s); [subst k |]
         end.

Lemma setattr_typed vd k v : typed k v = true <-> is_Some (setattr vd k v).
Proof.
  unfold typed, setattr.
  destruct (assoc k num_fields) as [[? ?]|];
    [| destruct (assoc k str_fields) as [[? ?]|];
       [| destruct (assoc k bool_fields) as [[? ?]|]]];
    destruct v; split; intros H; try reflexivity; try discriminate;
    try (eexists; reflexivity); destruct H as [? H]; discriminate H.
Qed.

Lemma getattr_setattr_same vd k v vd' :
  setattr vd k v = Some vd' -> getattr vd' k = Ok v.
Proof.
  unfold setattr, getattr.
  cbn [assoc num_fields str_fields bool_fields].
  key_cases k;
    try (destruct v; intros [= <-]; reflexivity).
  intros [= <-]. cbn. now rewrite lookup_insert_eq.
Qed.

Lemma getattr_setattr_other vd k v vd' k' :
  setattr vd k v = Some vd' -> k <> k' -> getattr vd' k' = getattr vd k'.
Proof.
  unfold setattr, getattr.
  cbn [assoc num_fields str_fields bool_fields].
  intros H Hne. revert H.
  key_cases k;
    try (destruct v; try discriminate; intros [= <-];
         key_cases k'; solve [reflexivity | congruence]).
  intros [= <-]. key_cases k'; try reflexivity.
  cbn. now rewrite lookup_insert_ne.
Qed.

Lemma setattrs_getattr_keep items : forall vd vd' k,
  setattrs vd items = Some vd' ->
  k ∉ items.*1 ->
  getattr vd' k = getattr vd k.
Proof.
  induction items as [|[k0 v0] items IH]; intros vd vd' k; cbn.
  - now intros [= <-].
  - destruct (setattr vd k0 v0) as [vd1|] eqn:E; [| discriminate].
    intros H Hk. apply not_elem_of_cons in Hk as [Hne Hk].
    rewrite (IH _ _ _ H Hk). eapply getattr_setattr_other; eauto.
Qed.

(** After the loop every attribute named by an item holds the item's
    value. *)
Lemma setattrs_getattr items : forall vd vd' k v,
  setattrs vd items = Some vd' ->
  NoDup items.*1 ->
  (k, v) ∈ items ->
  getattr vd' k = Ok v.
Proof.
  induction items as [|[k0 v0] items IH]; intros vd vd' k v; cbn.
  - intros _ _ H. now apply elem_of_nil in H.
  - destruct (setattr vd k0 v0) as [vd1|] eqn:E; [| discriminate].
    intros H Hnd Hin. apply NoDup_cons in Hnd as [Hk0 Hnd].
    apply elem_of_cons in Hin as [[= -> ->] | Hin].
    + rewrite (setattrs_getattr_keep _ _ _ _ H Hk0).
      eapply getattr_setattr_same; eauto.
    + eapply IH; eauto.
Qed.

(** The loop is defined exactly on well-typed items, whatever the record
    it starts from. *)
Lemma setattrs_typed items : forall vd,
  forallb (fun kv => typed (fst kv) (snd kv)) items = true <->
  is_Some (setattrs vd items).
Proof.
  induction items as [|[k0 v0] items IH]; intros vd; cbn.
  - split; [eexists; reflexivity | reflexivity].
  - rewrite andb_true_iff, (setattr_typed vd k0 v0).
    destruct (setattr vd k0 v0) as [vd1|].
    + rewrite (IH vd1). split; [tauto | intros; split; [eexists; reflexivity | assumption]].
    + split; [intros [[? H] _]; discriminate H | intros [? H]; discriminate H].
Qed.

(** ** Reset *)

Lemma reset_vehicle_unfold self d now self' logs :
  reset_vehicle self d now = Some (self', logs) ->
  exists vd,
    setattrs (vehicle_data self) (map_to_list d) = Some vd /\
    self' =
      {| vehicle_data :=
           with_dyn_attrs
             (with_maneuver_active (with_vehicle_started vd false) false)
             (<["maneuver_name" := PNone]> (dyn_attrs vd));
         simulation_enabled := simulation_enabled self;
         is_running := true; is_paused := false; _last_update_time := now |} /\
    logs = [(INFO, "Vehicle reset performed.")].
Proof.
  unfold reset_vehicle.
  destruct (setattrs (vehicle_data self) (map_to_list d)) as [vd|];
    [| discriminate].
  intros [= <- <-]. exists vd. auto.
Qed.

Lemma forced_keep vd k :
  k ∉ forced_by_reset ->
  getattr
    (with_dyn_attrs (with_maneuver_active (with_vehicle_started vd false) false)
       (<["maneuver_name" := PNone]> (dyn_attrs vd))) k
  = getattr vd k.
Proof.
  intros Hk. unfold forced_by_reset in Hk.
  rewrite !not_elem_of_cons in Hk. destruct Hk as (H1 & H2 & H3 & _).
  transitivity (getattr (with_maneuver_active (with_vehicle_started vd false) false) k).
  { apply (getattr_setattr_other _ "maneuver_name" PNone); [reflexivity | congruence]. }
  transitivity (getattr (with_vehicle_started vd false) k).
  { apply (getattr_setattr_other _ "maneuver_active" (PBool false));
      [reflexivity | congruence]. }
  apply (getattr_setattr_other _ "vehicle_started" (PBool false));
    [reflexivity | congruence].
Qed.

Lemma map_items_getattr (d : gmap string pyval) vd vd' k v :
  setattrs vd (map_to_list d) = Some vd' ->
  d !! k = Some v ->
  getattr vd' k = Ok v.
Proof.
  intros H Hk. eapply setattrs_getattr; eauto.
  - apply NoDup_fst_map_to_list.
  - now apply elem_of_map_to_list.
Qed.

Lemma VehicleData_init_Ok d vd0 :
  VehicleData_init d = Some (Ok vd0) ->
  setattrs VehicleData_default (map_to_list d) = Some vd0.
Proof.
  unfold VehicleData_init.
  destruct (filter _ (map_to_list d)) as [|[k ?] ?]; [| discriminate].
  destruct (setattrs VehicleData_default (map_to_list d)); [| discriminate].
  now intros [= ->].
Qed.

Lemma validated_not_forced k : k ∈ validated_fields -> k ∉ forced_by_reset.
Proof.
  unfold validated_fields, forced_by_reset.
  rewrite !elem_of_cons, !elem_of_nil. intuition congruence.
Qed.

(** [reset_vehicle] is defined on every well-typed dictionary. *)
Lemma reset_vehicle_defined self (d : gmap string pyval) now :
  forallb (fun kv => typed (fst kv) (snd kv)) (map_to_list d) = true ->
  is_Some (reset_vehicle self d now).
Proof.
  intros H. apply (setattrs_typed _ (vehicle_data self)) in H as [vd H].
  unfold reset_vehicle. rewrite H. eexists. reflexivity.
Qed.

(** C6: after [reset_vehicle d] at instant [now], every attribute named
    in [d], other than the three the reset assigns itself, holds [d]'s
    value; [vehicle_started] and [maneuver_active] are false,
    [maneuver_name] is [None], [is_running] is true, [is_paused] is false
    and the step timer is [now]; one INFO record is written.  When [d] is
    an initial-state record that passes [validate] (the constructor accepts
    it, it names the six validated fields, and the record built from it
    validates), [validate] holds right after the reset. *)
Theorem C6_reset_postcondition (self self' : ControlHandler)
    (d : gmap string pyval) (now : Q) (logs : list log_record) :
  reset_vehicle self d now = Some (self', logs) ->
  (forall k v, d !! k = Some v -> k ∉ forced_by_reset ->
     getattr (vehicle_data self') k = Ok v) /\
  vehicle_started (vehicle_data self') = false /\
  maneuver_active (vehicle_data self') = false /\
  getattr (vehicle_data self') "maneuver_name" = Ok PNone /\
  is_running self' = true /\
  is_paused self' = false /\
  _last_update_time self' = now /\
  logs = [(INFO, "Vehicle reset performed.")] /\
  (forall vd0,
     VehicleData_init d = Some (Ok vd0) ->
     Forall (fun k => is_Some (d !! k)) validated_fields ->
     validate vd0 = true ->
     validate (vehicle_data self') = true).
Proof.
  intros H. apply reset_vehicle_unfold in H as (vd & Hloop & -> & ->).
  cbn [vehicle_data is_running is_paused _last_update_time].
  assert (Hnamed : forall k v, d !! k = Some v -> k ∉ forced_by_reset ->
            getattr
              (with_dyn_attrs
                 (with_maneuver_active (with_vehicle_started vd false) false)
                 (<["maneuver_name" := PNone]> (dyn_attrs vd))) k = Ok v).
  { intros k v Hk Hf. rewrite (forced_keep _ _ Hf).
    eapply map_items_getattr; eauto. }
  split; [exact Hnamed |].
  split; [reflexivity |]. split; [reflexivity |].
  split; [rewrite getattr_maneuver_name; cbn; now rewrite lookup_insert_eq |].
  split; [reflexivity |]. split; [reflexivity |]. split; [reflexivity |].
  split; [reflexivity |].
  intros vd0 Hinit Hall Hval. apply VehicleData_init_Ok in Hinit.
  assert (Hsame : forall k, k ∈ validated_fields ->
            getattr
              (with_dyn_attrs
                 (with_maneuver_active (with_vehicle_started vd false) false)
                 (<["maneuver_name" := PNone]> (dyn_attrs vd))) k
            = getattr vd0 k).
  { intros k Hk. rewrite Forall_forall in Hall.
    destruct (Hall k Hk) as [v Hv].
    rewrite (map_items_getattr _ _ _ _ _ Hinit Hv). apply Hnamed; trivial.
    now apply validated_not_forced. }
  unfold validated_fields in Hsame.
  pose proof (Hsame "rpm" ltac:(repeat constructor)) as E1.
  pose proof (Hsame "speed_kmh" ltac:(repeat constructor)) as E2.
  pose proof (Hsame "steering_wheel_angle" ltac:(repeat constructor)) as E3.
  pose proof (Hsame "clutch_value" ltac:(repeat constructor)) as E4.
  pose proof (Hsame "break_value" ltac:(repeat constructor)) as E5.
  pose proof (Hsame "accel_value" ltac:(repeat constructor)) as E6.
  injection E1 as E1. injection E2 as E2. injection E3 as E3.
  injection E4 as E4. injection E5 as E5. injection E6 as E6.
  cbn in E1, E2, E3, E4, E5, E6.
  rewrite <- Hval. unfold validate. cbn.
  now rewrite E1, E2, E3, E4, E5, E6.
Qed.

(** The reset the panel performs: the default record, on a handler that
    was driving. *)
Lemma C6_reset_postcondition_witness :
  exists self' logs,
    reset_vehicle handler_driving default_vehicle_data 7 = Some (self', logs) /\
    getattr (vehicle_data self') "gear" = Ok (PStr "N") /\
    vehicle_started (vehicle_data self') = false /\
    _last_update_time self' = 7 /\
    validate (vehicle_data self') = true.
Proof.
  destruct (reset_vehicle handler_driving default_vehicle_data 7)
    as [[self' logs]|] eqn:E; [| vm_compute in E; discriminate E].
  exists self', logs. split; [reflexivity |].
  destruct (C6_reset_postcondition _ _ _ _ _ E)
    as (Hnamed & Hst & _ & _ & _ & _ & Hnow & _ & Hval).
  split.
  { apply Hnamed; [reflexivity |].
    unfold forced_by_reset. rewrite !elem_of_cons, elem_of_nil.
    intuition discriminate. }
  split; [exact Hst |]. split; [exact Hnow |].
  destruct (VehicleData_init default_vehicle_data) as [[vd0|e]|] eqn:Ei;
    [| vm_compute in Ei; discriminate Ei | vm_compute in Ei; discriminate Ei].
  apply (Hval vd0); [reflexivity | |].
  - unfold validated_fields. repeat constructor; eexists; reflexivity.
  - vm_compute in Ei. injection Ei as <-. reflexivity.
Defined.

(** ** Loading and saving the configuration *)

Lemma path_or_nonempty p fallback :
  os.nonempty p = true -> path_or (Some p) fallback = p.
Proof. unfold path_or. now intros ->. Qed.

Lemma dirname_nonempty p :
  os.nonempty (os.dirname p) = true -> os.nonempty p = true.
Proof. destruct p; [discriminate | reflexivity]. Qed.

Lemma makedirs_nonempty name :
  os.nonempty name = true -> os.makedirs name = None.
Proof. unfold os.makedirs. now intros ->. Qed.

(** A file that does not parse: the defaults are returned, the error is
    logged, the disk is left as it was. *)
Lemma load_config_malformed self file_path fs why :
  fs !! path_or file_path (config_file self) = Some (Malformed why) ->
  let r := load_config self file_path fs in
  value r = Ok (PDict (default_config self)) /\
  disk r = fs /\
  exists msg, records r = [(ERROR, msg)].
Proof.
  intros H r. subst r. unfold load_config. rewrite H. cbn. eauto.
Qed.

(** A file that parses is returned and the disk is left as it was. *)
Lemma load_config_present self file_path fs config :
  fs !! path_or file_path (config_file self) = Some (JsonDoc config) ->
  let r := load_config self file_path fs in
  value r = Ok config /\ disk r = fs.
Proof.
  intros H r. subst r. unfold load_config. rewrite H. cbn. auto.
Qed.

(** No file at the manager's own path, which has a directory part and
    does not end with the separator: the defaults are written there and
    returned. *)
Lemma load_config_absent_own_path self fs :
  os.nonempty (os.dirname (config_file self)) = true ->
  os.ends_with_sep (config_file self) = false ->
  fs !! config_file self = None ->
  let r := load_config self None fs in
  value r = Ok (PDict (default_config self)) /\
  disk r = <[config_file self := JsonDoc (PDict (default_config self))]> fs.
Proof.
  intros Hd He H r. subst r. unfold load_config, save_config. cbn [path_or].
  rewrite H, (makedirs_nonempty _ Hd), He. cbn. auto.
Qed.

(** C8: "for every path, a missing file is created with the defaults at
    that path, and load_config never raises".  The code is evaluated on an
    empty disk with the manager's path left at data/config.json.
    Asked for /home/user/car.json, it returns the defaults but writes
    them to data/config.json, and /home/user/car.json still does not
    exist.  Asked for car.json, a name without directory part, it raises
    FileNotFoundError from [os.makedirs] and writes nothing. *)
Theorem C8_defaults_written_to_own_path :
  let self := ConfigManager_init None in
  let r := load_config self (Some "/home/user/car.json") ∅ in
  let r' := load_config self (Some "car.json") ∅ in
  value r = Ok (PDict (default_config self)) /\
  disk r !! "/home/user/car.json" = None /\
  disk r !! "data/config.json" = Some (JsonDoc (PDict (default_config self))) /\
  value r' = Raise (FileNotFoundError EmptyString) /\
  disk r' = ∅.
Proof. vm_compute. repeat split; reflexivity. Qed.

Lemma py_eq_refl q : Py.eq q q = true.
Proof. apply eq_true. reflexivity. Qed.

Lemma VehicleData_eq_dyn_attrs vd m :
  VehicleData_eq (with_dyn_attrs vd m) vd = true.
Proof.
  unfold VehicleData_eq. cbn.
  now rewrite !py_eq_refl, String.eqb_refl, !Bool.eqb_reflx.
Qed.

(** The constructor gives back the record whose fields were written into
    the dictionary literal; it carries no undeclared attribute. *)
Lemma VehicleData_init_record vd :
  VehicleData_init (vehicle_data_record vd) = Some (Ok (with_dyn_attrs vd ∅)).
Proof. destruct vd. vm_compute. reflexivity. Qed.




(** ** The limits from a valid state *)

(** From a state that passes [validate], with [dt >= 0], the six fields
    are within their limits after the call, whether the stepper is
    inactive, returns, or raises in the speed simulation. *)
Lemma simulate_valid_within self now u :
  validate (vehicle_data self) = true ->
  _last_update_time self <= now ->
  within_limits (vehicle_data (after (simulate_vehicle_data self now u))).
Proof.
  intros Hval Hnow. apply validate_within in Hval.
  unfold simulate_vehicle_data.
  destruct (negb (simulation_enabled self) || negb (is_running self)
            || is_paused self); [exact Hval |].
  cbn zeta. cbn [vehicle_data with_last_update_time].
  destruct (vehicle_started (vehicle_data self));
    [| apply clamp_limits_within].
  unfold started_body.
  set (dt := now - _last_update_time self).
  destruct (speed_simulation (rpm_simulation (vehicle_data self) dt) dt)
    as [vd2|e]; [apply clamp_limits_within |].
  cbn [after vehicle_data with_vehicle_data].
  pose proof (rpm_simulation_law (vehicle_data self) dt) as E.
  rewrite rpm_simulation_frame. unfold within_limits in *. cbn.
  destruct Hval as (H1 & H2 & H3 & H4 & H5 & H6).
  rewrite E. split; [| tauto].
  apply spec_rpm_range; try tauto. subst dt. lra.
Qed.

(** * Further properties of the handler *)

(** ** Power, pause and stop *)

(** Two presses of the power button: the vehicle is started exactly when
    it was before, but one of the two presses switched it off, so RPM and
    speed are 0.0 and the gear is "P" whatever they were; every other
    field is untouched. *)
Theorem toggle_vehicle_power_twice (self : ControlHandler) :
  let self2 := fst (toggle_vehicle_power (fst (toggle_vehicle_power self))) in
  self2 =
    with_vehicle_data self
      (with_gear (with_speed_kmh (with_rpm (vehicle_data self) 0.0) 0.0) "P") /\
  vehicle_started (vehicle_data self2) = vehicle_started (vehicle_data self) /\
  rpm (vehicle_data self2) = 0.0 /\
  speed_kmh (vehicle_data self2) = 0.0 /\
  gear (vehicle_data self2) = "P".
Proof.
  destruct self as [vd en run pa t]. destruct vd. cbn.
  destruct vehicle_started0; cbn; auto.
Qed.

(** Two presses of the pause button give back the handler, and the two
    records written are one "paused" and one "resumed". *)
Theorem toggle_pause_twice (self : ControlHandler) :
  let r1 := toggle_pause self in
  let r2 := toggle_pause (fst r1) in
  fst r2 = self /\
  is_paused (fst r1) = negb (is_paused self) /\
  snd r1 ++ snd r2 =
    if is_paused self
    then [(INFO, "Simulation resumed."); (INFO, "Simulation paused.")]
    else [(INFO, "Simulation paused."); (INFO, "Simulation resumed.")].
Proof.
  destruct self as [vd en run pa t]. cbn. destruct pa; cbn; auto.
Qed.

Lemma simulate_not_running self now u :
  is_running self = false ->
  simulate_vehicle_data self now u
  = {| raised := None; after := self; logged := [] |}.
Proof.
  intros H. unfold simulate_vehicle_data. rewrite H.
  now rewrite orb_true_r.
Qed.

Lemma run_steps_not_running calls : forall self,
  is_running self = false -> run_steps self calls = self.
Proof.
  induction calls as [|[now u] calls IH]; intros self H; cbn; [reflexivity |].
  rewrite (simulate_not_running _ _ _ H). cbn. now apply IH.
Qed.

(** Once [stop_simulation] has run, no sequence of calls of the stepper
    changes anything, before or after a press of the pause button: the
    vehicle stays off at RPM 0.0, speed 0.0, in "P". *)
Theorem stop_simulation_is_final (self : ControlHandler)
    (calls : list (Q * (nat -> Q))) :
  let stopped := fst (stop_simulation self) in
  run_steps stopped calls = stopped /\
  run_steps (fst (toggle_pause stopped)) calls = fst (toggle_pause stopped) /\
  vehicle_started (vehicle_data stopped) = false /\
  rpm (vehicle_data stopped) = 0.0 /\
  speed_kmh (vehicle_data stopped) = 0.0 /\
  gear (vehicle_data stopped) = "P".
Proof.
  intros stopped. subst stopped.
  split; [apply run_steps_not_running; reflexivity |].
  split; [apply run_steps_not_running; reflexivity |].
  repeat split.
Qed.

(** ** When the stepper raises *)

(** [simulate_vehicle_data] raises exactly when the stepper is active, the
    vehicle is started, [maneuver_active] is set, and [maneuver_name] was
    never assigned (AttributeError) or holds a dictionary (TypeError from
    the catalogue lookup).  After [stop_maneuver] it therefore returns. *)
Theorem simulate_raises_iff (self : ControlHandler) (now : Q) (u : nat -> Q)
    (e : exn) :
  (raised (simulate_vehicle_data self now u) = Some e <->
   active self = true /\
   vehicle_started (vehicle_data self) = true /\
   maneuver_active (vehicle_data self) = true /\
   ((dyn_attrs (vehicle_data self) !! "maneuver_name" = None /\
     e = AttributeError "maneuver_name") \/
    (exists d, dyn_attrs (vehicle_data self) !! "maneuver_name" = Some (PDict d) /\
               e = TypeError "unhashable type: 'dict'"))) /\
  raised (simulate_vehicle_data (fst (stop_maneuver self)) now u) = None.
Proof.
  assert (Hoff : forall h, maneuver_active (vehicle_data h) = false ->
            raised (simulate_vehicle_data h now u) = None).
  { intros h Hm. unfold simulate_vehicle_data.
    destruct (negb (simulation_enabled h) || negb (is_running h) || is_paused h);
      [reflexivity |].
    cbn zeta. cbn [vehicle_data with_last_update_time].
    destruct (vehicle_started (vehicle_data h)); [| reflexivity].
    unfold started_body.
    destruct (speed_simulation_law
                (rpm_simulation (vehicle_data h) (now - _last_update_time h))
                (now - _last_update_time h)) as (s & -> & _); [| reflexivity].
    rewrite rpm_simulation_frame. exact Hm. }
  split; [| apply Hoff; reflexivity].
  destruct (active self) eqn:Hact.
  2:{ unfold simulate_vehicle_data. rewrite active_guard, Hact. cbn.
      split; [discriminate | intros [H _]; discriminate H]. }
  rewrite (simulate_active _ _ _ Hact).
  destruct (vehicle_started (vehicle_data self)) eqn:Hst.
  2:{ cbn. split; [discriminate | intros (_ & H & _); discriminate H]. }
  destruct (maneuver_active (vehicle_data self)) eqn:Hman.
  2:{ pose proof (Hoff self Hman) as H.
      rewrite (simulate_active _ _ _ Hact), Hst in H. rewrite H.
      split; [discriminate | intros (_ & _ & H' & _); discriminate H']. }
  cbn zeta. unfold started_body, speed_simulation, speed_branch.
  rewrite rpm_simulation_frame. cbn [maneuver_active with_rpm].
  rewrite Hman, getattr_maneuver_name. cbn [dyn_attrs with_rpm].
  destruct (dyn_attrs (vehicle_data self) !! "maneuver_name") as [name|].
  - destruct name; cbn;
      try (split; [discriminate
                  | intros (_ & _ & _ & [[H _] | (d' & H & _)]); discriminate H]).
    split.
    + intros [= <-]. repeat split. right. eauto.
    + intros (_ & _ & _ & [[H _] | (d' & _ & ->)]); [discriminate H | reflexivity].
  - cbn. split.
    + intros [= <-]. repeat split. left. auto.
    + intros (_ & _ & _ & [[_ ->] | (d' & H & _)]); [reflexivity | discriminate H].
Qed.

(** ** The stepper with the vehicle off *)

Ltac min_max_step :=
  match goal with
  | |- context [Py.min ?a ?b] =>
      lazymatch b with
      | context [Py.min _ _] => fail
      | context [Py.max _ _] => fail
      | _ => let H := fresh in
             let E := fresh in
             destruct (min_cases a b) as [[H E]|[H E]]; rewrite !E
      end
  | |- context [Py.max ?a ?b] =>
      lazymatch b with
      | context [Py.min _ _] => fail
      | context [Py.max _ _] => fail
      | _ => let H := fresh in
             let E := fresh in
             destruct (max_cases a b) as [[H E]|[H E]]; rewrite !E
      end
  end.

Lemma clamp_idem lo hi x :
  lo < hi -> clamp lo hi (clamp lo hi x) = clamp lo hi x.
Proof.
  intros Hlh. unfold clamp.
  repeat min_max_step; try reflexivity; exfalso; lra.
Qed.

Lemma clamp_limits_idem vd : clamp_limits (clamp_limits vd) = clamp_limits vd.
Proof.
  destruct vd as [r s o g px py pz ar ap ay rr pr yr c b a st vs ma dy].
  cbv beta iota zeta delta
    [clamp_limits with_rpm with_speed_kmh with_clutch_value with_break_value
     with_accel_value with_steering_wheel_angle
     rpm speed_kmh odometer_km gear pos_x_m pos_y_m pos_z_m angle_roll_deg
     angle_pitch_deg angle_yaw_deg roll_rate_degs pitch_rate_degs
     yaw_rate_degs clutch_value break_value accel_value steering_wheel_angle
     vehicle_started maneuver_active dyn_attrs].
  f_equal; match goal with
           | |- Py.max ?lo (Py.min ?hi _) = Py.max _ (Py.min _ ?x) =>
               apply (clamp_idem lo hi x); lra
           end.
Qed.

Lemma simulate_off_eq self now u :
  active self = true ->
  vehicle_started (vehicle_data self) = false ->
  simulate_vehicle_data self now u =
  {| raised := None;
     after := with_vehicle_data (with_last_update_time self now)
                (clamp_limits (vehicle_data self));
     logged := [(DEBUG, "Vehicle data simulated.")] |}.
Proof.
  intros Hact Hoff. rewrite (simulate_active _ _ _ Hact), Hoff. reflexivity.
Qed.

(** With the vehicle off, a call of the active stepper only clamps the six
    limited fields and stamps the time: odometer, gear, pose, flags and
    undeclared attributes are kept, and a second call changes nothing but
    the timestamp. *)
Theorem simulate_vehicle_off (self : ControlHandler) (t1 t2 : Q)
    (u1 u2 : nat -> Q) :
  active self = true ->
  vehicle_started (vehicle_data self) = false ->
  let vd := vehicle_data self in
  let r1 := simulate_vehicle_data self t1 u1 in
  let vd1 := vehicle_data (after r1) in
  let r2 := simulate_vehicle_data (after r1) t2 u2 in
  raised r1 = None /\
  vd1 = clamp_limits vd /\
  within_limits vd1 /\
  (odometer_km vd1 = odometer_km vd /\ gear vd1 = gear vd /\
   pos_x_m vd1 = pos_x_m vd /\ pos_y_m vd1 = pos_y_m vd /\
   pos_z_m vd1 = pos_z_m vd /\ maneuver_active vd1 = maneuver_active vd /\
   dyn_attrs vd1 = dyn_attrs vd) /\
  _last_update_time (after r1) = t1 /\
  raised r2 = None /\
  vehicle_data (after r2) = vd1 /\
  _last_update_time (after r2) = t2.
Proof.
  intros Hact Hoff vd r1 vd1 r2. subst vd1 r2 r1 vd.
  rewrite (simulate_off_eq self t1 u1 Hact Hoff).
  cbn [after raised].
  rewrite (simulate_off_eq
             (with_vehicle_data (with_last_update_time self t1)
                (clamp_limits (vehicle_data self))) t2 u2 Hact Hoff).
  cbn [after raised vehicle_data with_vehicle_data _last_update_time
       with_last_update_time].
  split; [reflexivity |]. split; [reflexivity |].
  split; [apply clamp_limits_within |].
  split; [repeat split |]. split; [reflexivity |]. split; [reflexivity |].
  split; [apply clamp_limits_idem | reflexivity].
Qed.

Lemma simulate_vehicle_off_witness :
  let self :=
    fst (ControlHandler_init
           (with_accel_value (with_rpm VehicleData_default 9000) 150) true 0) in
  let r1 := simulate_vehicle_data self 1 (fun _ => 0) in
  let r2 := simulate_vehicle_data (after r1) 2 (fun _ => 0) in
  rpm (vehicle_data (after r1)) = 8000 /\
  accel_value (vehicle_data (after r1)) = 100 /\
  vehicle_data (after r2) = vehicle_data (after r1).
Proof.
  intros self r1 r2.
  destruct (simulate_vehicle_off self 1 2 (fun _ => 0) (fun _ => 0))
    as (_ & H1 & _ & _ & _ & _ & H2 & _); try reflexivity.
  fold r1 in H1, H2. fold r2 in H2.
  split; [rewrite H1; reflexivity |]. split; [rewrite H1; reflexivity | exact H2].
Defined.

(** A pause does not stop the clock: calls made while paused do nothing,
    not even to the timestamp, so the first call after the resume sees the
    whole pause as elapsed time and equals the same call made without any
    pause. *)
Theorem pause_does_not_stop_the_clock (self : ControlHandler) (t1 t2 : Q)
    (u1 u2 : nat -> Q) :
  is_paused self = false ->
  let paused := fst (toggle_pause self) in
  let during := simulate_vehicle_data paused t1 u1 in
  let resumed := fst (toggle_pause (after during)) in
  after during = paused /\
  resumed = self /\
  simulate_vehicle_data resumed t2 u2 = simulate_vehicle_data self t2 u2.
Proof.
  intros Hp paused during resumed.
  assert (E : after during = paused).
  { subst during paused. unfold simulate_vehicle_data, toggle_pause.
    cbn. rewrite Hp. cbn. now rewrite !orb_true_r. }
  assert (E' : resumed = self).
  { subst resumed. rewrite E. subst paused.
    destruct self as [vd en run pa t]. cbn in *. now subst pa. }
  split; [exact E |]. split; [exact E' |]. now rewrite E'.
Qed.

Lemma pause_does_not_stop_the_clock_witness :
  let paused := fst (toggle_pause handler_driving) in
  let during := simulate_vehicle_data paused 30 (fun _ => 0) in
  let resumed := fst (toggle_pause (after during)) in
  simulate_vehicle_data resumed 60 (fun _ => 0)
  = simulate_vehicle_data handler_driving 60 (fun _ => 0).
Proof.
  intros paused during resumed.
  destruct (pause_does_not_stop_the_clock handler_driving 30 60
              (fun _ => 0) (fun _ => 0)) as (_ & _ & H); [reflexivity |].
  exact H.
Defined.

(** ** What the stepper leaves alone *)

Lemma apply_preset_frame vd p :
  gear (apply_preset vd p) = gear vd /\
  vehicle_started (apply_preset vd p) = vehicle_started vd /\
  maneuver_active (apply_preset vd p) = maneuver_active vd /\
  dyn_attrs (apply_preset vd p) = dyn_attrs vd /\
  clutch_value (apply_preset vd p) = clutch_value vd /\
  accel_value (apply_preset vd p) = accel_value vd.
Proof. unfold apply_preset. destruct (Py.truthy p); cbn; auto 10. Qed.

Lemma speed_simulation_frame vd dt vd' :
  speed_simulation vd dt = Ok vd' ->
  gear vd' = gear vd /\
  vehicle_started vd' = vehicle_started vd /\
  maneuver_active vd' = maneuver_active vd /\
  dyn_attrs vd' = dyn_attrs vd /\
  clutch_value vd' = clutch_value vd /\
  accel_value vd' = accel_value vd.
Proof.
  unfold speed_simulation, speed_branch.
  destruct (maneuver_active vd) eqn:Hm.
  - destruct (getattr vd "maneuver_name") as [name|e]; [| discriminate].
    destruct (presets_get name) as [p|e]; [| discriminate].
    intros [= <-]. cbn.
    pose proof (apply_preset_frame vd p) as F. now rewrite Hm in F.
  - repeat match goal with
           | |- context [if ?c then _ else _] => destruct c
           end; intros [= <-]; cbn; auto 10.
Qed.

Lemma simulate_keeps (self : ControlHandler) (now : Q) (u : nat -> Q) :
  let self' := after (simulate_vehicle_data self now u) in
  let vd := vehicle_data self in
  let vd' := vehicle_data self' in
  gear vd' = gear vd /\
  vehicle_started vd' = vehicle_started vd /\
  maneuver_active vd' = maneuver_active vd /\
  dyn_attrs vd' = dyn_attrs vd /\
  (clutch_value vd' = clutch_value vd \/
   clutch_value vd' = clamp 0 100 (clutch_value vd)) /\
  (accel_value vd' = accel_value vd \/
   accel_value vd' = clamp 0 100 (accel_value vd)) /\
  simulation_enabled self' = simulation_enabled self /\
  is_running self' = is_running self /\
  is_paused self' = is_paused self.
Proof.
  intros self' vd vd'. subst self' vd' vd. unfold simulate_vehicle_data.
  destruct (negb (simulation_enabled self) || negb (is_running self)
            || is_paused self); [cbn; auto 10 |].
  cbn zeta. cbn [vehicle_data with_last_update_time].
  destruct (vehicle_started (vehicle_data self)) eqn:Hst;
    [| cbn; rewrite Hst; auto 10].
  unfold started_body.
  set (dt := now - _last_update_time self).
  destruct (speed_simulation (rpm_simulation (vehicle_data self) dt) dt)
    as [vd2|e] eqn:E.
  - apply speed_simulation_frame in E.
    rewrite rpm_simulation_frame in E. cbn in E.
    destruct E as (E1 & E2 & E3 & E4 & E5 & E6).
    cbn [after vehicle_data with_vehicle_data simulation_enabled is_running
         is_paused with_last_update_time].
    rewrite odometer_update_frame. cbn.
    rewrite E1, E2, E3, E4, E5, E6, Hst. unfold clamp. auto 10.
  - cbn [after vehicle_data with_vehicle_data simulation_enabled is_running
         is_paused with_last_update_time].
    rewrite rpm_simulation_frame. cbn. rewrite Hst. auto 10.
Qed.

(** Whatever the state and the outcome, a call of the stepper never
    writes the gear, [vehicle_started], [maneuver_active], the undeclared
    attributes (so [maneuver_name]) or the handler's own switches; the
    clutch and the accelerator are either left as they are or clamped to
    [0, 100]. *)
Theorem simulate_frame (self : ControlHandler) (now : Q) (u : nat -> Q) :
  let self' := after (simulate_vehicle_data self now u) in
  let vd := vehicle_data self in
  let vd' := vehicle_data self' in
  gear vd' = gear vd /\
  vehicle_started vd' = vehicle_started vd /\
  maneuver_active vd' = maneuver_active vd /\
  dyn_attrs vd' = dyn_attrs vd /\
  (clutch_value vd' = clutch_value vd \/
   clutch_value vd' = clamp 0 100 (clutch_value vd)) /\
  (accel_value vd' = accel_value vd \/
   accel_value vd' = clamp 0 100 (accel_value vd)) /\
  simulation_enabled self' = simulation_enabled self /\
  is_running self' = is_running self /\
  is_paused self' = is_paused self.
Proof. exact (simulate_keeps self now u). Qed.

Lemma simulate_stamps self now u :
  active self = true ->
  _last_update_time (after (simulate_vehicle_data self now u)) = now.
Proof.
  intros Hact. rewrite (simulate_active _ _ _ Hact). cbn zeta.
  destruct (vehicle_started (vehicle_data self)); [| reflexivity].
  destruct (started_body _ _ _) as [[e|] vd']; reflexivity.
Qed.

Lemma active_flags h h' :
  simulation_enabled h' = simulation_enabled h ->
  is_running h' = is_running h ->
  is_paused h' = is_paused h ->
  active h' = active h.
Proof. unfold active. now intros -> -> ->. Qed.

(** ** A started vehicle without maneuver *)

Lemma simulate_no_maneuver_eq self now u :
  active self = true ->
  vehicle_started (vehicle_data self) = true ->
  maneuver_active (vehicle_data self) = false ->
  let dt := now - _last_update_time self in
  let vd := vehicle_data self in
  exists s,
    s == spec_speed (speed_kmh vd) (accel_value vd) (break_value vd) (gear vd) dt /\
    simulate_vehicle_data self now u =
    {| raised := None;
       after :=
         with_vehicle_data (with_last_update_time self now)
           (clamp_limits
              (pose_update
                 (odometer_update (with_speed_kmh (rpm_simulation vd dt) s) dt)
                 u));
       logged := [(DEBUG, "Vehicle data simulated.")] |}.
Proof.
  intros Hact Hst Hman dt vd.
  rewrite (simulate_active _ _ _ Hact), Hst. cbn zeta. fold dt vd.
  unfold started_body.
  destruct (speed_simulation_law (rpm_simulation vd dt) dt) as (s & Hs & Es).
  { rewrite rpm_simulation_frame. exact Hman. }
  rewrite rpm_simulation_frame in Es. cbn in Es.
  exists s. split; [exact Es |]. now rewrite Hs.
Qed.

Lemma not_driving_N_P g : g = "N" \/ g = "P" -> spec_driving_gear g = false.
Proof. intros [-> | ->]; reflexivity. Qed.

Lemma spec_speed_neutral s a b g dt :
  g = "N" \/ g = "P" -> b <= 0 -> spec_speed s a b g dt == 0.
Proof.
  intros Hg Hb. unfold spec_speed.
  rewrite (not_driving_N_P g Hg), andb_false_r. cbn [andb].
  replace (is_pos b) with false
    by (symmetry; rewrite <- gt0_is_pos; now apply lt_false).
  replace (bool_decide (g ∈ ["N"; "P"])) with true
    by (destruct Hg as [-> | ->]; reflexivity).
  reflexivity.
Qed.

(** In "N" or "P" with the brake released, one step of a started vehicle
    without maneuver leaves the speed at 0, whatever the speed, the
    accelerator and the elapsed time were, and does not touch the
    odometer. *)
Theorem neutral_or_park_stops_at_once (self : ControlHandler) (now : Q)
    (u : nat -> Q) :
  active self = true ->
  vehicle_started (vehicle_data self) = true ->
  maneuver_active (vehicle_data self) = false ->
  gear (vehicle_data self) = "N" \/ gear (vehicle_data self) = "P" ->
  break_value (vehicle_data self) <= 0 ->
  let r := simulate_vehicle_data self now u in
  raised r = None /\
  speed_kmh (vehicle_data (after r)) == 0 /\
  odometer_km (vehicle_data (after r)) = odometer_km (vehicle_data self).
Proof.
  intros Hact Hst Hman Hg Hb r. subst r.
  destruct (simulate_no_maneuver_eq self now u Hact Hst Hman) as (s & Es & ->).
  rewrite (spec_speed_neutral _ _ _ _ _ Hg Hb) in Es.
  cbn [raised after vehicle_data with_vehicle_data].
  split; [reflexivity |].
  assert (Hgt : Py.gt s 0 = false) by (apply lt_false; lra).
  split.
  - rewrite odometer_update_frame. cbn.
    fold (clamp 0 300 s). rewrite (clamp_comp 0 300 _ _ Es). reflexivity.
  - unfold odometer_update. cbn [speed_kmh with_speed_kmh]. rewrite Hgt.
    rewrite rpm_simulation_frame. reflexivity.
Qed.

Lemma neutral_or_park_stops_at_once_witness :
  let self :=
    with_vehicle_data handler_driving
      (with_gear (vehicle_data handler_driving) "N") in
  let r := simulate_vehicle_data self (1 # 100) (fun _ => 0) in
  speed_kmh (vehicle_data self) = 80 /\
  accel_value (vehicle_data self) = 50 /\
  speed_kmh (vehicle_data (after r)) == 0.
Proof.
  intros self r.
  destruct (neutral_or_park_stops_at_once self (1 # 100) (fun _ => 0))
    as (_ & H & _); try reflexivity.
  - left; reflexivity.
  - discriminate.
  - split; [reflexivity | split; [reflexivity | exact H]].
Defined.

(** With the brake pressed, whatever the accelerator and the gear, one
    step of a started vehicle without maneuver never raises the speed and
    never makes it negative (speed within its limits, one decimal, and a
    non-negative elapsed time). *)
Theorem braking_never_speeds_up (self : ControlHandler) (now : Q)
    (u : nat -> Q) :
  active self = true ->
  vehicle_started (vehicle_data self) = true ->
  maneuver_active (vehicle_data self) = false ->
  0 < break_value (vehicle_data self) ->
  0 <= speed_kmh (vehicle_data self) <= 300 ->
  Py.round (speed_kmh (vehicle_data self)) 1 == speed_kmh (vehicle_data self) ->
  _last_update_time self <= now ->
  let r := simulate_vehicle_data self now u in
  raised r = None /\
  0 <= speed_kmh (vehicle_data (after r)) <= speed_kmh (vehicle_data self).
Proof.
  intros Hact Hst Hman Hb Hs Hgrid Hnow r. subst r.
  destruct (simulate_no_maneuver_eq self now u Hact Hst Hman) as (s & Es & ->).
  cbn [raised after vehicle_data with_vehicle_data].
  split; [reflexivity |].
  rewrite odometer_update_frame. cbn. fold (clamp 0 300 s).
  set (vd := vehicle_data self) in *.
  set (dt := now - _last_update_time self) in *.
  assert (Hdt : 0 <= dt) by (subst dt; lra).
  assert (Hs' : 0 <= s <= speed_kmh vd).
  { rewrite Es. unfold spec_speed.
    replace (is_zero (break_value vd)) with false
      by (symmetry; rewrite <- eq0_is_zero;
          destruct (Py.eq (break_value vd) 0) eqn:E; [| reflexivity];
          apply eq_true in E; lra).
    rewrite andb_false_r. cbn [andb].
    replace (is_pos (break_value vd)) with true
      by (symmetry; rewrite <- gt0_is_pos; now apply lt_true).
    assert (0 <= break_value vd / 5) by (apply Qle_shift_div_l; lra).
    split.
    - apply (round_ge_int 0). apply Q.le_max_r.
    - rewrite <- Hgrid at 2. apply round_mono. apply Q.max_lub; nra. }
  rewrite (clamp_id 0 300 s) by lra. exact Hs'.
Qed.

Lemma braking_never_speeds_up_witness :
  let self :=
    with_vehicle_data handler_driving
      (with_break_value (vehicle_data handler_driving) 30) in
  let r := simulate_vehicle_data self (1 # 2) (fun _ => 0) in
  0 <= speed_kmh (vehicle_data (after r)) <= 80.
Proof.
  intros self r.
  destruct (braking_never_speeds_up self (1 # 2) (fun _ => 0))
    as (_ & H); try reflexivity; try discriminate.
  - split; discriminate.
  - exact H.
Defined.

(** ** Maneuvers of the catalogue *)

Lemma presets_get_catalogue n p :
  all_maneuver_presets !! n = Some p -> presets_get (PStr n) = Ok p.
Proof. intros H. cbn. unfold Py.get. now rewrite H. Qed.

(** While a maneuver of the catalogue is active, every step of a started
    vehicle returns and leaves each field the preset names at exactly the
    preset's value: the rounding and the final clamp do not move it, and
    neither the pedals, the gear nor the elapsed time matter.  Every
    preset names the speed. *)
Theorem catalogue_maneuver_pins_fields (self : ControlHandler) (now : Q)
    (u : nat -> Q) (n : string) (p : gmap string Q) :
  active self = true ->
  vehicle_started (vehicle_data self) = true ->
  maneuver_active (vehicle_data self) = true ->
  dyn_attrs (vehicle_data self) !! "maneuver_name" = Some (PStr n) ->
  all_maneuver_presets !! n = Some p ->
  let r := simulate_vehicle_data self now u in
  let vd' := vehicle_data (after r) in
  raised r = None /\
  is_Some (p !! "speed_kmh") /\
  (forall v, p !! "speed_kmh" = Some v -> speed_kmh vd' == v) /\
  (forall v, p !! "steering_wheel_angle" = Some v ->
     steering_wheel_angle vd' == v) /\
  (forall v, p !! "break_value" = Some v -> break_value vd' == v).
Proof.
  intros Hact Hst Hman Hname Hn r vd'. subst vd' r.
  destruct (simulate_in_maneuver self now u (PStr n) p Hact Hst Hman Hname
              (presets_get_catalogue n p Hn)) as (H0 & _ & H1 & H2 & H3).
  rewrite H1, H2, H3.
  destruct (apply_preset_fields (vehicle_data self) p (catalogue_truthy n p Hn))
    as (-> & -> & ->).
  split; [exact H0 |].
  destruct (catalogue_cases n p Hn) as [[_ ->] | [[_ ->] | [_ ->]]];
    (split; [eexists; reflexivity |]);
    repeat split; intros v Hv; vm_compute in Hv;
    try discriminate Hv; injection Hv as <-;
    (erewrite get_Some by reflexivity); vm_compute; reflexivity.
Qed.

Lemma catalogue_maneuver_pins_fields_witness :
  let self := fst (start_maneuver handler_driving (Some "Sharp Turn")) in
  let r := simulate_vehicle_data self 3 (fun _ => 0) in
  speed_kmh (vehicle_data (after r)) == 30 /\
  steering_wheel_angle (vehicle_data (after r)) == 300.
Proof.
  intros self r.
  destruct (catalogue_maneuver_pins_fields self 3 (fun _ => 0)
              "Sharp Turn" sharp_turn) as (_ & _ & H1 & H2 & _);
    try reflexivity.
  split; [apply H1 | apply H2]; reflexivity.
Defined.

Lemma spec_speed_braked a g dt : 0 <= dt -> spec_speed 0 a 100 g dt == 0.
Proof.
  intros Hdt. unfold spec_speed.
  replace (is_zero 100) with false
    by (rewrite <- eq0_is_zero; reflexivity).
  rewrite andb_false_r. cbn [andb].
  replace (is_pos 100) with true by (rewrite <- gt0_is_pos; reflexivity).
  assert (E : Qmax (0 - 100 / 5 * dt * 5) 0 == 0).
  { apply Q.max_r. assert (E20 : 100 / 5 == 20) by reflexivity.
    rewrite E20. lra. }
  rewrite (round_comp _ _ E 1%nat 1%nat eq_refl). reflexivity.
Qed.

(** The Emergency Stop outlives the maneuver: after one step of the
    maneuver and [stop_maneuver], the brake is still at 100, and the next
    step (made no earlier than the first) keeps the brake at 100 and the
    speed at 0 whatever the accelerator and the gear are. *)
Theorem emergency_stop_latches_brake (self : ControlHandler) (t1 t2 : Q)
    (u1 u2 : nat -> Q) :
  active self = true ->
  vehicle_started (vehicle_data self) = true ->
  t1 <= t2 ->
  let r1 := simulate_vehicle_data
              (fst (start_maneuver self (Some "Emergency Stop"))) t1 u1 in
  let stopped := fst (stop_maneuver (after r1)) in
  let r2 := simulate_vehicle_data stopped t2 u2 in
  maneuver_active (vehicle_data stopped) = false /\
  break_value (vehicle_data stopped) = 100 /\
  accel_value (vehicle_data stopped) = clamp 0 100 (accel_value (vehicle_data self)) /\
  raised r2 = None /\
  break_value (vehicle_data (after r2)) = 100 /\
  speed_kmh (vehicle_data (after r2)) == 0.
Proof.
  intros Hact Hst Ht r1 stopped r2.
  set (h1 := fst (start_maneuver self (Some "Emergency Stop"))) in *.
  assert (Eh1 : h1 =
            with_vehicle_data self
              (with_dyn_attrs (with_maneuver_active (vehicle_data self) true)
                 (<["maneuver_name" := PStr "Emergency Stop"]>
                    (dyn_attrs (vehicle_data self))))).
  { subst h1. unfold start_maneuver. rewrite Hst. reflexivity. }
  assert (Hact1 : active h1 = true) by (rewrite Eh1; exact Hact).
  assert (Hst1 : vehicle_started (vehicle_data h1) = true)
    by (rewrite Eh1; exact Hst).
  assert (Hman1 : maneuver_active (vehicle_data h1) = true)
    by (rewrite Eh1; reflexivity).
  assert (Hname1 : dyn_attrs (vehicle_data h1) !! "maneuver_name"
                   = Some (PStr "Emergency Stop"))
    by (rewrite Eh1; cbn; apply lookup_insert_eq).
  destruct (simulate_in_maneuver h1 t1 u1 (PStr "Emergency Stop") emergency_stop
              Hact1 Hst1 Hman1 Hname1 eq_refl) as (H0 & _ & Hs1 & _ & Hb1).
  fold r1 in H0, Hs1, Hb1.
  destruct (apply_preset_fields (vehicle_data h1) emergency_stop eq_refl)
    as (Es & _ & Eb).
  rewrite Es in Hs1. rewrite Eb in Hb1.
  rewrite (get_Some emergency_stop "speed_kmh" 0) in Hs1 by reflexivity.
  rewrite (get_Some emergency_stop "break_value" 100) in Hb1 by reflexivity.
  change (clamp 0 300 (Py.round 0 1)) with 0 in Hs1.
  change (clamp 0 100 100) with 100 in Hb1.
  destruct (simulate_keeps h1 t1 u1)
    as (_ & K2 & _ & _ & _ & K6 & K7 & K8 & K9).
  fold r1 in K2, K6, K7, K8, K9.
  pose proof (simulate_stamps h1 t1 u1 Hact1) as Kt. fold r1 in Kt.
  assert (Hact2 : active stopped = true).
  { rewrite <- Hact1. subst stopped. apply active_flags; cbn; assumption. }
  assert (Hst2 : vehicle_started (vehicle_data stopped) = true).
  { subst stopped. cbn. now rewrite K2. }
  assert (Hacc : accel_value (vehicle_data (after r1))
                 = clamp 0 100 (accel_value (vehicle_data self))).
  { assert (Hr : raised r1 = None) by exact H0.
    subst r1. rewrite (simulate_active _ _ _ Hact1), Hst1 in Hr |- *.
    cbn zeta in Hr |- *.
    destruct (started_body (vehicle_data h1) (t1 - _last_update_time h1) u1)
      as [[e|] vd'] eqn:Eb'; [discriminate Hr |].
    unfold started_body in Eb'.
    destruct (speed_simulation _ _) as [vd2|e] eqn:E2; [| discriminate Eb'].
    injection Eb' as <-.
    apply speed_simulation_frame in E2 as (_ & _ & _ & _ & _ & E2).
    rewrite rpm_simulation_frame in E2. cbn in E2.
    cbn [after vehicle_data with_vehicle_data].
    rewrite odometer_update_frame. cbn. rewrite E2, Eh1. reflexivity. }
  destruct (simulate_no_maneuver_eq stopped t2 u2 Hact2 Hst2 eq_refl)
    as (s & Es2 & E2).
  fold r2 in E2.
  assert (Hd : 0 <= t2 - _last_update_time stopped).
  { subst stopped. cbn. rewrite Kt. lra. }
  assert (Es0 : s == 0).
  { rewrite Es2. subst stopped. cbn. rewrite Hs1, Hb1.
    now apply spec_speed_braked. }
  split; [reflexivity |].
  split; [subst stopped; cbn; exact Hb1 |].
  split; [subst stopped; cbn; exact Hacc |].
  rewrite E2. cbn [raised after vehicle_data with_vehicle_data].
  split; [reflexivity |].
  rewrite odometer_update_frame, rpm_simulation_frame. cbn.
  split.
  - subst stopped. cbn. rewrite Hb1. reflexivity.
  - fold (clamp 0 300 s). rewrite (clamp_comp 0 300 _ _ Es0). reflexivity.
Qed.

Lemma emergency_stop_latches_brake_witness :
  let r1 := simulate_vehicle_data
              (fst (start_maneuver handler_driving (Some "Emergency Stop")))
              1 (fun _ => 0) in
  let r2 := simulate_vehicle_data (fst (stop_maneuver (after r1))) 2
              (fun _ => 0) in
  accel_value (vehicle_data (fst (stop_maneuver (after r1)))) = 50 /\
  break_value (vehicle_data (after r2)) = 100 /\
  speed_kmh (vehicle_data (after r2)) == 0.
Proof.
  intros r1 r2.
  destruct (emergency_stop_latches_brake handler_driving 1 2
              (fun _ => 0) (fun _ => 0))
    as (_ & _ & H1 & _ & H2 & H3).
  1, 2: reflexivity.
  1: discriminate.
  fold r1 in H1.
  fold r1 r2 in H2, H3.
  split; [rewrite H1; reflexivity | split; [exact H2 | exact H3]].
Defined.

(** ** Partial resets *)

Lemma not_in_keys (d : gmap string pyval) k :
  d !! k = None -> k ∉ (map_to_list d).*1.
Proof.
  intros H Hin. apply list_elem_of_fmap in Hin as [[k' v] [-> Hin]].
  apply elem_of_map_to_list in Hin. cbn in H. congruence.
Qed.

(** [reset_vehicle] overwrites only what the dictionary names: every
    attribute the dictionary does not name, other than the three the reset
    forces, keeps the value it had (with the empty dictionary nothing but
    the three forced attributes, the switches and the timer changes). *)
Theorem reset_vehicle_keeps_unnamed (self self' : ControlHandler)
    (d : gmap string pyval) (now : Q) (logs : list log_record) :
  reset_vehicle self d now = Some (self', logs) ->
  forall k, d !! k = None -> k ∉ forced_by_reset ->
    getattr (vehicle_data self') k = getattr (vehicle_data self) k.
Proof.
  intros H k Hk Hf. apply reset_vehicle_unfold in H as (vd & Hloop & -> & _).
  cbn [vehicle_data]. rewrite (forced_keep _ _ Hf).
  eapply setattrs_getattr_keep; eauto. now apply not_in_keys.
Qed.

Lemma reset_vehicle_keeps_unnamed_witness :
  exists self' logs,
    reset_vehicle handler_driving {["rpm" := PNum 900]} 5 = Some (self', logs) /\
    getattr (vehicle_data self') "speed_kmh" = Ok (PNum 80) /\
    getattr (vehicle_data self') "gear" = Ok (PStr "D").
Proof.
  destruct (reset_vehicle handler_driving {["rpm" := PNum 900]} 5)
    as [[self' logs]|] eqn:E; [| vm_compute in E; discriminate E].
  exists self', logs. split; [reflexivity |].
  pose proof (reset_vehicle_keeps_unnamed _ _ _ _ _ E) as H.
  assert (Hf : forall k, k = "speed_kmh" \/ k = "gear" -> k ∉ forced_by_reset).
  { intros k Hk. unfold forced_by_reset. rewrite !elem_of_cons, elem_of_nil.
    intuition congruence. }
  split.
  - rewrite (H "speed_kmh"); [reflexivity | reflexivity | apply Hf; auto].
  - rewrite (H "gear"); [reflexivity | reflexivity | apply Hf; auto].
Defined.

(** ** The constructor *)

Lemma no_unknown_keyword (items : list (string * pyval)) k v :
  filter (fun kv => negb (is_field (fst kv))) items = [] ->
  (k, v) ∈ items -> is_field k = true.
Proof.
  intros E Hin. destruct (is_field k) eqn:Ek; [reflexivity | exfalso].
  assert (H : (k, v) ∈ filter (fun kv => negb (is_field (fst kv))) items).
  { apply list_elem_of_filter. split; [| exact Hin]. cbn. now rewrite Ek. }
  rewrite E in H. now apply elem_of_nil in H.
Qed.

(** A keyword that is not one of the nineteen fields makes the
    constructor raise TypeError: a stored record that carries
    [maneuver_name], for one, cannot be loaded. *)
Theorem VehicleData_init_unknown_keyword (kwargs : gmap string pyval)
    (k : string) (v : pyval) :
  kwargs !! k = Some v ->
  is_field k = false ->
  exists msg, VehicleData_init kwargs = Some (Raise (TypeError msg)).
Proof.
  intros Hk Hf. unfold VehicleData_init.
  destruct (filter _ (map_to_list kwargs)) as [|[k' v'] rest] eqn:E.
  - exfalso. apply elem_of_map_to_list in Hk.
    pose proof (no_unknown_keyword _ _ _ E Hk) as H. congruence.
  - eexists. reflexivity.
Qed.

Lemma VehicleData_init_unknown_keyword_witness :
  exists msg,
    VehicleData_init (<["maneuver_name" := PStr "Sharp Turn"]>
                        (vehicle_data_record VehicleData_default))
    = Some (Raise (TypeError msg)).
Proof.
  apply (VehicleData_init_unknown_keyword _ "maneuver_name" (PStr "Sharp Turn")).
  - apply lookup_insert_eq.
  - reflexivity.
Defined.

Lemma setattr_field_dyn_attrs vd k v vd' :
  setattr vd k v = Some vd' -> is_field k = true ->
  dyn_attrs vd' = dyn_attrs vd.
Proof.
  unfold setattr, is_field.
  cbn [assoc num_fields str_fields bool_fields].
  key_cases k; try (destruct v; intros [= <-]; reflexivity).
  intros _ H. discriminate H.
Qed.

Lemma setattrs_fields_dyn_attrs items : forall vd vd',
  setattrs vd items = Some vd' ->
  (forall k v, (k, v) ∈ items -> is_field k = true) ->
  dyn_attrs vd' = dyn_attrs vd.
Proof.
  induction items as [|[k0 v0] items IH]; intros vd vd'; cbn.
  - now intros [= <-].
  - destruct (setattr vd k0 v0) as [vd1|] eqn:E; [| discriminate].
    intros H Hf. rewrite (IH _ _ H).
    + eapply setattr_field_dyn_attrs; eauto. apply (Hf k0 v0), elem_of_cons; auto.
    + intros k v Hin. apply (Hf k v), elem_of_cons; auto.
Qed.

(** When the constructor returns, every field named by a keyword holds the
    keyword's value, every other field holds the dataclass default, and
    the record has no undeclared attribute (so no [maneuver_name]). *)
Theorem VehicleData_init_fields (kwargs : gmap string pyval) (vd : VehicleData) :
  VehicleData_init kwargs = Some (Ok vd) ->
  (forall k v, kwargs !! k = Some v -> getattr vd k = Ok v) /\
  (forall k, kwargs !! k = None -> getattr vd k = getattr VehicleData_default k) /\
  dyn_attrs vd = ∅ /\
  getattr vd "maneuver_name" = Raise (AttributeError "maneuver_name").
Proof.
  intros H. pose proof (VehicleData_init_Ok _ _ H) as Hs.
  assert (Hd : dyn_attrs vd = ∅).
  { unfold VehicleData_init in H.
    destruct (filter _ (map_to_list kwargs)) as [|[k ?] ?] eqn:E;
      [| discriminate].
    apply (setattrs_fields_dyn_attrs _ _ _ Hs).
    intros k v Hin. exact (no_unknown_keyword _ _ _ E Hin). }
  split; [intros k v Hk; eapply map_items_getattr; eauto |].
  split; [intros k Hk; eapply setattrs_getattr_keep; eauto;
          now apply not_in_keys |].
  split; [exact Hd |].
  rewrite getattr_maneuver_name, Hd. reflexivity.
Qed.

Lemma VehicleData_init_fields_witness :
  exists vd,
    VehicleData_init {["gear" := PStr "D"]} = Some (Ok vd) /\
    getattr vd "gear" = Ok (PStr "D") /\
    getattr vd "rpm" = Ok (PNum 0.0).
Proof.
  destruct (VehicleData_init {["gear" := PStr "D"]}) as [[vd|e]|] eqn:E;
    [| vm_compute in E; discriminate E | vm_compute in E; discriminate E].
  exists vd. split; [reflexivity |].
  destruct (VehicleData_init_fields _ _ E) as (H1 & H2 & _).
  split; [apply H1; reflexivity | rewrite H2; reflexivity].
Defined.

(** ** The configuration file *)

(** What [save_config] reports saved, [load_config] reads back: whenever
    the save logs "Configuration saved to" the path, it has returned, the
    path does not end with the separator, and loading the same path from
    the disk the save left returns the saved record and writes nothing. *)
Theorem save_config_then_load (self : ConfigManager)
    (config : gmap string pyval) (file_path : option string)
    (fs : gmap string file) :
  let path := path_or file_path (config_file self) in
  let saved := save_config self config file_path fs in
  let loaded := load_config self file_path (disk saved) in
  records saved = [(INFO, "Configuration saved to " +:+ path)] ->
  value saved = Ok tt /\
  os.ends_with_sep path = false /\
  value loaded = Ok (PDict config) /\
  disk loaded = disk saved.
Proof.
  intros path saved loaded. subst loaded saved.
  unfold save_config, load_config. fold path.
  destruct (os.makedirs (os.dirname path)) as [e|]; [cbn; discriminate |].
  destruct (os.ends_with_sep path); [cbn; discriminate |].
  cbn [records value disk]. intros _.
  rewrite lookup_insert_eq. cbn [value disk]. auto.
Qed.

Lemma save_config_then_load_witness :
  let self := ConfigManager_init None in
  let saved := save_config self {["refresh_rate" := PNum 250]} None ∅ in
  records saved = [(INFO, "Configuration saved to data/config.json")] /\
  value (load_config self None (disk saved))
  = Ok (PDict {["refresh_rate" := PNum 250]}).
Proof.
  intros self saved. split; [reflexivity |].
  destruct (save_config_then_load self {["refresh_rate" := PNum 250]} None ∅)
    as (_ & _ & H & _); [reflexivity | exact H].
Defined.

Lemma after_last_sep_no_sep p : no_sep p = true -> os.after_last_sep p = 0%nat.
Proof.
  induction p as [|c p IH]; cbn; [reflexivity |].
  intros H. apply andb_true_iff in H as [Hc Hp].
  rewrite (IH Hp). apply negb_true_iff in Hc. now rewrite Hc.
Qed.

Lemma dirname_no_sep p : no_sep p = true -> os.dirname p = EmptyString.
Proof.
  intros H. unfold os.dirname. rewrite (after_last_sep_no_sep p H).
  destruct p; reflexivity.
Qed.

(** A name without any "/" has no directory part, and [os.makedirs] is
    then called on the empty name: [save_config] to such a name raises
    FileNotFoundError and writes nothing, and so does [load_config] when
    the file does not exist. *)
Theorem bare_file_name_raises (self : ConfigManager)
    (config : gmap string pyval) (name : string) (fs : gmap string file) :
  os.nonempty name = true ->
  no_sep name = true ->
  let saved := save_config self config (Some name) fs in
  let loaded := load_config self (Some name) fs in
  value saved = Raise (FileNotFoundError EmptyString) /\
  disk saved = fs /\
  (fs !! name = None ->
   value loaded = Raise (FileNotFoundError EmptyString) /\ disk loaded = fs).
Proof.
  intros Hn Hs saved loaded. subst saved loaded.
  unfold save_config, load_config.
  rewrite (path_or_nonempty _ _ Hn), (dirname_no_sep _ Hs).
  cbn. split; [reflexivity |]. split; [reflexivity |].
  intros ->. cbn. auto.
Qed.

Lemma bare_file_name_raises_witness :
  value (save_config (ConfigManager_init None) _get_default_config
           (Some "config.json") ∅)
  = Raise (FileNotFoundError EmptyString).
Proof.
  destruct (bare_file_name_raises (ConfigManager_init None) _get_default_config
              "config.json" ∅) as (H & _); [reflexivity | reflexivity | exact H].
Defined.

(** Loading twice is loading once: a second [load_config] of the same
    path on the disk the first one left returns the same result and leaves
    the disk as it found it, whatever the path and the disk. *)
Theorem load_config_twice (self : ConfigManager) (file_path : option string)
    (fs : gmap string file) :
  let r1 := load_config self file_path fs in
  let r2 := load_config self file_path (disk r1) in
  value r2 = value r1 /\ disk r2 = disk r1.
Proof.
  intros r1 r2. subst r2 r1. unfold load_config, save_config.
  cbn [path_or].
  set (path := path_or file_path (config_file self)).
  destruct (fs !! path) as [[config|why]|] eqn:E.
  - cbn [disk]. rewrite E. auto.
  - cbn [disk]. rewrite E. auto.
  - destruct (os.makedirs (os.dirname path)) eqn:Em.
    + cbn [disk]. rewrite E. auto.
    + destruct (os.makedirs (os.dirname (config_file self))) eqn:Eo.
      * cbn [value disk]. rewrite E. auto.
      * destruct (os.ends_with_sep (config_file self)) eqn:Es.
        -- cbn [value disk]. rewrite E. cbn [value disk]. auto.
        -- cbn [value disk].
           destruct (decide (config_file self = path)) as [Hp|Hp].
           ++ rewrite <- Hp, lookup_insert_eq. auto.
           ++ rewrite lookup_insert_ne, E by exact Hp.
              cbn [value disk]. now rewrite insert_insert_eq.
Qed.

(** ** The panel across sessions *)

Lemma VehicleData_init_restart vd :
  VehicleData_init (start_positions ∪ vehicle_data_record vd)
  = Some (Ok (with_pos_z_m
                (with_pos_y_m (with_pos_x_m (with_dyn_attrs vd ∅) 0.340) 0.450)
                0.560)).
Proof.
  destruct vd as [r s o g px py pz ar ap ay rr pr yr c b a st vs ma dy].
  vm_compute. reflexivity.
Qed.

Lemma on_closing_save_disk self fs :
  config_file (config_manager self) = "data/config.json" ->
  exists c,
    disk (snd (on_closing_save self fs))
      = <["data/config.json" := JsonDoc (PDict c)]> fs /\
    c !! "vehicle_data"
      = Some (PDict (vehicle_data_record (vehicle_data (control_handler self)))) /\
    c !! "simulation_enabled"
      = Some (PBool (simulation_enabled (control_handler self))) /\
    c !! "debug_mode" = Some (PBool (debug_mode self)).
Proof.
  intros Hp. unfold on_closing_save, save_config. cbn [snd disk path_or].
  assert (Hf : config_file
                 (config_manager
                    (panel_set_config self
                       (<["simulation_enabled" :=
                            PBool (simulation_enabled (control_handler self))]>
                        (<["debug_mode" := PBool (debug_mode self)]>
                         (<["vehicle_data" :=
                              PDict (vehicle_data_record
                                       (vehicle_data (control_handler self)))]>
                          (panel_config self))))))
                = "data/config.json").
  { unfold panel_set_config. destruct (own_config self); exact Hp. }
  rewrite Hf. cbn [os.makedirs os.dirname]. cbn.
  eexists. split; [reflexivity |].
  split; [now rewrite !lookup_insert_ne, lookup_insert_eq by discriminate |].
  split; [now rewrite lookup_insert_eq |].
  now rewrite lookup_insert_ne, lookup_insert_eq by discriminate.
Qed.





Lemma default_config_vehicle_data :
  Py.get _get_default_config "vehicle_data" (PDict ∅) = PDict default_vehicle_data.
Proof. vm_compute. reflexivity. Qed.

Lemma default_config_switches x :
  as_bool (Py.get (<["vehicle_data" := x]> _get_default_config)
             "simulation_enabled" (PBool true)) = Some true /\
  as_bool (Py.get (<["vehicle_data" := x]> _get_default_config)
             "debug_mode" (PBool false)) = Some false.
Proof.
  unfold Py.get. rewrite !lookup_insert_ne by discriminate.
  replace (_get_default_config !! "simulation_enabled")
    with (Some (PBool true)) by (vm_compute; reflexivity).
  replace (_get_default_config !! "debug_mode")
    with (Some (PBool false)) by (vm_compute; reflexivity).
  split; reflexivity.
Qed.

Lemma VehicleData_init_first_start :
  exists vd,
    VehicleData_init (start_positions ∪ default_vehicle_data) = Some (Ok vd).
Proof. vm_compute. eexists. reflexivity. Qed.

Lemma panel_init_defaults fs now :
  (forall c, fs !! "data/config.json" <> Some (JsonDoc c)) ->
  exists self',
    fst (panel_init fs now) = Some (Ok self') /\
    own_config self' = None /\
    Py.get (default_config (config_manager self')) "vehicle_data" (PDict ∅)
      = PDict (start_positions ∪ default_vehicle_data).
Proof.
  intros Hno.
  assert (Hv : value (load_config (ConfigManager_init None) None fs)
               = Ok (PDict _get_default_config)).
  { destruct (fs !! "data/config.json") as [[c|why]|] eqn:E.
    - exfalso. now apply (Hno c).
    - now destruct (load_config_malformed (ConfigManager_init None) None fs why E).
    - now destruct (load_config_absent_own_path (ConfigManager_init None) fs
                      eq_refl eq_refl E). }
  assert (Hd : match fs !! "data/config.json" with
               | Some (JsonDoc _) => false
               | _ => true
               end = true).
  { destruct (fs !! "data/config.json") as [[c|why]|] eqn:E; trivial.
    exfalso. now apply (Hno c). }
  destruct VehicleData_init_first_start as [vd0 Hvd0].
  destruct (default_config_switches
              (PDict (start_positions ∪ default_vehicle_data))) as [Hs1 Hs2].
  unfold panel_init. rewrite Hv. cbn [fst].
  change (config_file (ConfigManager_init None)) with "data/config.json".
  rewrite Hd, default_config_vehicle_data, Hvd0, Hs1, Hs2.
  eexists. split; [reflexivity |]. split; [reflexivity |].
  cbn [config_manager default_config]. unfold Py.get.
  now rewrite lookup_insert_eq.
Qed.

Lemma panel_init_parsed fs now c self' :
  fs !! "data/config.json" = Some (JsonDoc c) ->
  fst (panel_init fs now) = Some (Ok self') ->
  config_manager self' = ConfigManager_init None.
Proof.
  intros E.
  assert (Hv : value (load_config (ConfigManager_init None) None fs) = Ok c)
    by now destruct (load_config_present (ConfigManager_init None) None fs c E).
  unfold panel_init. rewrite Hv. cbn [fst].
  change (config_file (ConfigManager_init None)) with "data/config.json".
  rewrite E.
  destruct c as [| | | |c]; try discriminate.
  destruct (Py.get c "vehicle_data" (PDict ∅)) as [| | | |stored];
    try discriminate.
  destruct (VehicleData_init (start_positions ∪ stored)) as [[vd|e]|];
    try discriminate.
  destruct (as_bool _); [| discriminate].
  destruct (as_bool _); [| discriminate].
  now intros [= <-].
Qed.

Lemma reset_positions (h : ControlHandler) (d : gmap string pyval) t x y z :
  forallb (fun kv => typed (fst kv) (snd kv)) (map_to_list d) = true ->
  d !! "pos_x_m" = Some (PNum x) ->
  d !! "pos_y_m" = Some (PNum y) ->
  d !! "pos_z_m" = Some (PNum z) ->
  exists h' logs,
    reset_vehicle h d t = Some (h', logs) /\
    pos_x_m (vehicle_data h') = x /\
    pos_y_m (vehicle_data h') = y /\
    pos_z_m (vehicle_data h') = z.
Proof.
  intros Ht Hx Hy Hz.
  destruct (reset_vehicle_defined h d t Ht) as [[h' logs] E].
  exists h', logs. split; [exact E |].
  apply reset_vehicle_unfold in E as (vd & Hloop & -> & _).
  cbn [vehicle_data].
  pose proof (map_items_getattr _ _ _ _ _ Hloop Hx) as Gx.
  pose proof (map_items_getattr _ _ _ _ _ Hloop Hy) as Gy.
  pose proof (map_items_getattr _ _ _ _ _ Hloop Hz) as Gz.
  injection Gx as Gx. injection Gy as Gy. injection Gz as Gz.
  cbn. auto.
Qed.



(** ** Drawing *)

Lemma py_range_8 : py_range 0 8 1 = [0; 1; 2; 3; 4; 5; 6; 7]%Z.
Proof. reflexivity. Qed.

(** The pedal histogram shows no level below 90.  For every value (and a
    [max_val] other than zero) it draws eight bars.  For a value under 90
    every bar is filled with the same colour, green under 70 and orange
    from 70 on, whatever the fill level.  From 90 on each bar is red or
    gray20. *)
Theorem draw_histogram_one_colour_below_90 (value max_val : Q) :
  ~ max_val == 0 ->
  exists items,
    draw_histogram value max_val = Some items /\
    length items = 8%nat /\
    (value < 90 ->
     Forall (fun it => item_fill it = if Py.lt value 70 then "green" else "orange")
            items) /\
    (90 <= value ->
     Forall (fun it => item_fill it = "red" \/ item_fill it = "gray20") items).
Proof.
  intros Hm. unfold draw_histogram.
  destruct (Py.eq max_val 0) eqn:E; [apply eq_true in E; contradiction |].
  rewrite py_range_8.
  eexists. split; [reflexivity |]. split; [reflexivity |]. split.
  - intros Hv.
    assert (H90 : Py.lt value 90 = true) by now apply lt_true.
    cbn [map]. rewrite H90.
    destruct (Py.lt value 70); repeat constructor.
  - intros Hv.
    assert (H90 : Py.lt value 90 = false) by now apply lt_false.
    assert (H70 : Py.lt value 70 = false) by (apply lt_false; lra).
    cbn [map]. rewrite H90, H70.
    repeat (constructor;
            [cbn [item_fill];
             match goal with
             | |- context [if ?b then _ else _] => destruct b
             end; auto |]).
    constructor.
Qed.

(** A pedal at 10 and a pedal at 95, both out of 100. *)
Lemma draw_histogram_one_colour_below_90_witness :
  (exists items,
     draw_histogram 10 100 = Some items /\
     length items = 8%nat /\
     Forall (fun it => item_fill it = "green") items) /\
  (exists items,
     draw_histogram 95 100 = Some items /\
     length items = 8%nat /\
     Forall (fun it => item_fill it = "red" \/ item_fill it = "gray20") items).
Proof.
  split.
  - destruct (draw_histogram_one_colour_below_90 10 100)
      as (items & H1 & H2 & H3 & _); [discriminate |].
    exists items. split; [exact H1 |]. split; [exact H2 |].
    apply H3. reflexivity.
  - destruct (draw_histogram_one_colour_below_90 95 100)
      as (items & H1 & H2 & _ & H4); [discriminate |].
    exists items. split; [exact H1 |]. split; [exact H2 |].
    apply H4. discriminate.
Defined.

Lemma steering_scale_length : length draw_steering_scale = 15%nat.
Proof. vm_compute. reflexivity. Qed.

(** The steering pointer is always on the scale: for every angle the
    indicator draws the same fifteen scale items and then exactly one
    pointer, whose tip is at [150 + a * (100/780)] for the clamped angle
    [a], between 50 and 250; from 780 on it sits at 250 and down from -780
    at 50. *)
Theorem steering_pointer_always_on_scale (angle : Q) :
  let a := clamp (-780) 780 angle in
  let p := 150 + a * (100 / 780) in
  draw_steering_indicator angle =
    draw_steering_scale ++
    [Polygon [p - 4; 2; p + 4; 2; p; 10] "cyan" "cyan"] /\
  length (draw_steering_indicator angle) = 16%nat /\
  50 <= p <= 250 /\
  (780 <= angle -> p == 250) /\
  (angle <= -780 -> p == 50).
Proof.
  intros a p.
  assert (Ha : -780 <= a <= 780) by (apply clamp_range; lra).
  assert (Es : 100 / 780 == 5 # 39) by reflexivity.
  assert (Hp : 50 <= p <= 250) by (subst p; rewrite Es; lra).
  assert (E : draw_steering_indicator angle =
              draw_steering_scale ++
              [Polygon [p - 4; 2; p + 4; 2; p; 10] "cyan" "cyan"]).
  { unfold draw_steering_indicator. fold (clamp (-780) 780 angle). fold a.
    cbv zeta. fold p.
    replace (Py.le 50 p) with true by (symmetry; apply le_true; lra).
    replace (Py.le p 250) with true by (symmetry; apply le_true; lra).
    reflexivity. }
  split; [exact E |].
  split; [rewrite E, length_app, steering_scale_length; reflexivity |].
  split; [exact Hp |].
  split; intros H.
  - assert (Ea : a == 780) by (subst a; unfold clamp;
      destruct (min_cases 780 angle) as [[? ->]|[? ->]];
      [lra | destruct (max_cases (-780) 780) as [[? ->]|[? ->]]; lra]).
    subst p. rewrite Ea. reflexivity.
  - assert (Ea : a == -780) by (subst a; unfold clamp;
      destruct (min_cases 780 angle) as [[? ->]|[? ->]];
      [destruct (max_cases (-780) angle) as [[? ->]|[? ->]]; lra
      |destruct (max_cases (-780) 780) as [[? ->]|[? ->]]; lra]).
    subst p. rewrite Ea. reflexivity.
Qed.

(** The gear display knows five gears.  For one of them it draws the five
    letters, that one green with a green marker beside it; for any other
    gear, "1" to "6" included, which [set_gear] accepts and the stepper
    drives in, it draws the five letters in white and no marker at all. *)
Theorem gear_selector_marks_known_gears (current_gear : string) :
  length (filter (fun it => is_rectangle it = true)
            (draw_gear_selector current_gear))
  = (if Py.str_in current_gear ["P"; "R"; "N"; "D"; "L"] then 1%nat else 0%nat) /\
  (Py.str_in current_gear ["P"; "R"; "N"; "D"; "L"] = false ->
   draw_gear_selector current_gear =
     [ Text 25 (15 + 0 * 10) "P" "white"; Text 25 (15 + 1 * 10) "R" "white";
       Text 25 (15 + 2 * 10) "N" "white"; Text 25 (15 + 3 * 10) "D" "white";
       Text 25 (15 + 4 * 10) "L" "white" ]) /\
  Forall (fun g => Py.str_in g ["P"; "R"; "N"; "D"; "L"] = false)
         ["1"; "2"; "3"; "4"; "5"; "6"].
Proof.
  unfold draw_gear_selector, Py.str_in, enumerate.
  cbn [map concat existsb app combine seq length fst snd].
  rewrite !(String.eqb_sym current_gear).
  split; [| split].
  - destruct (String.eqb_spec "P" current_gear) as [<-|HP]; [reflexivity |].
    destruct (String.eqb_spec "R" current_gear) as [<-|HR]; [reflexivity |].
    destruct (String.eqb_spec "N" current_gear) as [<-|HN]; [reflexivity |].
    destruct (String.eqb_spec "D" current_gear) as [<-|HD]; [reflexivity |].
    destruct (String.eqb_spec "L" current_gear) as [<-|HL]; reflexivity.
  - intros H. rewrite !orb_false_iff in H.
    destruct H as (-> & -> & -> & -> & -> & _). reflexivity.
  - repeat constructor.
Qed.

Lemma gear_selector_marks_known_gears_witness :
  draw_gear_selector "3" =
    [ Text 25 (15 + 0 * 10) "P" "white"; Text 25 (15 + 1 * 10) "R" "white";
      Text 25 (15 + 2 * 10) "N" "white"; Text 25 (15 + 3 * 10) "D" "white";
      Text 25 (15 + 4 * 10) "L" "white" ].
Proof.
  destruct (gear_selector_marks_known_gears "3") as (_ & H & _).
  apply H. reflexivity.
Defined.

Lemma steering_pointer_always_on_scale_witness :
  150 + clamp (-780) 780 1000 * (100 / 780) == 250.
Proof.
  destruct (steering_pointer_always_on_scale 1000) as (_ & _ & _ & H & _).
  apply H. discriminate.
Defined.

Lemma simulate_raises_iff_witness :
  let self :=
    with_vehicle_data handler_driving
      (with_maneuver_active (vehicle_data handler_driving) true) in
  raised (simulate_vehicle_data self 1 (fun _ => 0))
  = Some (AttributeError "maneuver_name").
Proof.
  intros self.
  destruct (simulate_raises_iff self 1 (fun _ => 0)
              (AttributeError "maneuver_name")) as [[_ H] _].
  apply H. repeat split. left. split; reflexivity.
Defined.
